(** * Grab-n-Go: real-time catalog and order synchronisation

    Shallow embedding of the order, status and notification paths of the
    Express/socket.io backend and of the React reconcilers that consume the
    notifications.

    Two backends exist in the repository:
    - [backend/server.js], the hardened server ("Main" below);
    - an earlier server.js kept as [src/unnamed/part_004] ("Alt" below).
    Both are modelled where a claim depends on them. *)

From Stdlib Require Import ZArith List String Bool Lia.
From Stdlib Require QArith.
Import ListNotations.
Open Scope Z_scope.
Open Scope list_scope.

(* ------------------------------------------------------------------ *)
(** ** JavaScript values *)

(** Arithmetic on JS numbers.  The handlers only add, multiply, start a
    [reduce] at [0], convert integral quantities, and test truthiness
    ([!item.price]); the theorems hold for any implementation of these
    operations, IEEE doubles included. *)
Class JsNum (N : Type) := {
  jadd : N -> N -> N;
  jmul : N -> N -> N;
  jzero : N;
  jofZ : Z -> N;
  jtruthy : N -> bool
}.

(** The value a [DECIMAL(10,2)] column ([orders.total_amount],
    [order_items.unit_price], [order_items.subtotal]) keeps of a number
    the handler sends: MySQL rounds it to two decimals.  A value out of the
    column's range is refused, which the insert faults below cover. *)
Class Decimal2 (N : Type) := {
  dec2 : N -> N
}.

(** A request field tested with [Number.isInteger]: an integral number, or
    anything else (a fraction, a string, [undefined], ...). *)
Inductive jsv : Type :=
| JInt (z : Z)
| JNonInt.

(** socket.io rooms: ['admins'], ['customers'] and [`user:${id}`]. *)
Inductive room : Type :=
| RAdmins
| RCustomers
| RUser (uid : Z).

(** Allowed values of the status columns (ENUMs of the schema and the
    [allowedStatus] / [allowedPayment] sets of the status route). *)
Definition allowedStatus : list string :=
  ["pending"; "confirmed"; "preparing"; "ready"; "completed"; "cancelled"]%string.

Definition allowedPayment : list string :=
  ["pending"; "paid"; "refunded"]%string.

Definition set_has (s : list string) (x : string) : bool :=
  existsb (String.eqb x) s.

(* ------------------------------------------------------------------ *)
(** ** Relational store and pooled connections *)

Section Store.
Context {N : Type} `{JsNum N} `{Decimal2 N}.

(** A row of [orders]; only the columns the handlers write or read back. *)
Record order_row := mk_order_row {
  or_id : Z;
  or_user : Z;
  or_number : Z;            (** ['ORD' + Date.now()]: the timestamp part *)
  or_total : N;
  or_payment_method : string;
  or_status : string;
  or_payment_status : string
}.

(** A row of [order_items]. *)
Record item_row := mk_item_row {
  ir_order : Z;
  ir_item : Z;
  ir_qty : Z;
  ir_price : N;
  ir_subtotal : N
}.

Record db := mk_db {
  menu_ids : list Z;        (** primary keys of [menu_items] *)
  next_item_id : Z;         (** AUTO_INCREMENT of [menu_items] *)
  orders : list order_row;
  order_items : list item_row;
  next_order_id : Z         (** AUTO_INCREMENT of [orders] *)
}.

(** A pooled MySQL connection: the committed database, the working copy the
    open transaction sees, and whether a transaction is open. *)
Record conn := mk_conn {
  c_committed : db;
  c_work : db;
  c_in_tx : bool
}.

Definition get_connection (d : db) : conn := mk_conn d d false.

Definition begin_transaction (c : conn) : conn :=
  mk_conn (c_committed c) (c_committed c) true.

Definition rollback (c : conn) : conn :=
  mk_conn (c_committed c) (c_committed c) false.

Definition commit (c : conn) : conn :=
  mk_conn (c_work c) (c_work c) false.

Definition set_work (c : conn) (w : db) : conn :=
  mk_conn (c_committed c) w (c_in_tx c).

(** The row an [orders] insert stores: [total_amount] is a DECIMAL(10,2). *)
Definition stored_order (o : order_row) : order_row :=
  mk_order_row (or_id o) (or_user o) (or_number o) (dec2 (or_total o))
    (or_payment_method o) (or_status o) (or_payment_status o).

(** The row an [order_items] insert stores: [unit_price] and [subtotal]
    are DECIMAL(10,2). *)
Definition stored_item (ir : item_row) : item_row :=
  mk_item_row (ir_order ir) (ir_item ir) (ir_qty ir)
    (dec2 (ir_price ir)) (dec2 (ir_subtotal ir)).

(** [INSERT INTO orders]: refused on the UNIQUE [order_number]; the new row
    gets the AUTO_INCREMENT id ([insertId]). *)
Definition insert_order (w : db) (r : Z -> order_row) : option (Z * db) :=
  let oid := next_order_id w in
  if existsb (fun o => Z.eqb (or_number o) (or_number (r oid))) (orders w)
  then None
  else Some (oid, mk_db (menu_ids w) (next_item_id w)
                        (orders w ++ [stored_order (r oid)])
                        (order_items w) (oid + 1)).

(** Bulk [INSERT INTO order_items ... VALUES ?]: refused as a whole when a
    row violates the foreign key to [menu_items]. *)
Definition insert_items (w : db) (rows : list item_row) : option db :=
  if forallb (fun ir => existsb (Z.eqb (ir_item ir)) (menu_ids w)) rows
  then Some (mk_db (menu_ids w) (next_item_id w) (orders w)
                   (order_items w ++ map stored_item rows) (next_order_id w))
  else None.

(** Failures of the store and of the socket layer that the code handles:
    each flag makes the corresponding callback receive an [err]; [f_emit r]
    makes [io.to(r).emit(...)] throw. *)
Record faults := mk_faults {
  f_conn : bool;
  f_begin : bool;
  f_ins_order : bool;
  f_ins_items : bool;
  f_commit : bool;
  f_ins_menu : bool;
  f_update : bool;
  f_fetch : bool;
  f_emit : room -> bool
}.

Definition no_faults : faults :=
  mk_faults false false false false false false false false (fun _ => false).

Definition with_emit (f : faults) (e : room -> bool) : faults :=
  mk_faults (f_conn f) (f_begin f) (f_ins_order f) (f_ins_items f)
            (f_commit f) (f_ins_menu f) (f_update f) (f_fetch f) e.

(* ------------------------------------------------------------------ *)
(** ** Responses, notifications and traces *)

Inductive body :=
| BError (msg : string)
| BPlaced (orderId : Z) (orderNumber : Z) (totalAmount : N)
| BMenuAdded (itemId : Z)
| BMessage (msg : string)
| BOrderUpdated (o : order_row).

Record response := mk_response { status : Z; rbody : body }.

Inductive payload :=
| PNewOrder (orderId orderNumber : Z) (totalAmount : N) (userId : Z)
| PMenuItem (itemId : Z)
| POrder (o : order_row).

Inductive effect :=
| Emit (r : room) (ev : string) (p : payload)
| Log (msg : string).

(** The statements of a [try { io.to(r1).emit(..); io.to(r2).emit(..) }]
    block, run in order; the first one that throws ends the block.  Each
    emit reached is recorded as attempted.  The boolean says whether the
    block threw. *)
Fixpoint try_emits (fe : room -> bool) (es : list (room * string * payload))
  : list effect * bool :=
  match es with
  | [] => ([], false)
  | (r, ev, p) :: rest =>
      if fe r then ([Emit r ev p], true)
      else let '(tr, threw) := try_emits fe rest in (Emit r ev p :: tr, threw)
  end.

(** [catch (_e) { console.warn(msg) }] (Main) or [catch (_e) {}] (Alt). *)
Definition catch_log (log : option string) (threw : bool) : list effect :=
  match log with
  | Some m => if threw then [Log m] else []
  | None => []
  end.

Definition notify (fe : room -> bool) (es : list (room * string * payload))
  (log : option string) : list effect :=
  let '(tr, threw) := try_emits fe es in tr ++ catch_log log threw.

(** Result of a request: the database as committed once the handler is
    done, whether the connection went back to the pool with a transaction
    still open, the HTTP response and the socket/log effects. *)
Record outcome := mk_outcome {
  out_db : db;
  out_open_tx : bool;
  out_resp : response;
  out_trace : list effect
}.

Definition err (code : Z) (m : string) : response := mk_response code (BError m).

(** The connection is released in every branch: the committed state is
    what persists. *)
Definition released (c : conn) (r : response) (tr : list effect) : outcome :=
  mk_outcome (c_committed c) (c_in_tx c) r tr.

End Store.

Arguments order_row : clear implicits.
Arguments item_row : clear implicits.
Arguments db : clear implicits.
Arguments conn : clear implicits.
Arguments body : clear implicits.
Arguments response : clear implicits.
Arguments payload : clear implicits.
Arguments effect : clear implicits.
Arguments outcome : clear implicits.

(* ------------------------------------------------------------------ *)
(** ** POST /api/orders *)

Module OrderCreate.
Section Create.
Context {N : Type} `{JsNum N} `{Decimal2 N}.

(** [items.reduce((sum, item) => sum + (item.price * item.quantity), 0)] on
    the (item id, quantity, price) tuples. *)
Definition server_total (lines : list (Z * Z * N)) : N :=
  fold_left (fun s '(_, q, p) => jadd s (jmul p (jofZ q))) lines jzero.

(** [items.map(item => [orderId, item.item_id, item.quantity, item.price,
    item.price * item.quantity])]. *)
Definition order_items_data (oid : Z) (lines : list (Z * Z * N)) : list (item_row N) :=
  map (fun '(i, q, p) => mk_item_row oid i q p (jmul p (jofZ q))) lines.

(** The header written by [INSERT INTO orders]: status and payment status
    are ['pending'] (explicitly in Main, by the column default in Alt). *)
Definition order_header (userId num : Z) (total : N) (pm : string) (oid : Z)
  : order_row N :=
  mk_order_row oid userId num total pm "pending" "pending".

(** From [db.getConnection] to the response: the transaction shared by
    both servers.  [note] builds the [order:new] payload from the insert id;
    [log] is the catch block's warning (Main) or nothing (Alt). *)
Definition order_tx (d : db N) (f : faults) (userId num : Z) (total : N)
  (pm : string) (lines : list (Z * Z * N)) (note : Z -> payload N)
  (log : option string) : outcome N :=
  if f_conn f then mk_outcome d false (err 500 "Database connection failed") []
  else
  let c0 := get_connection d in
  if f_begin f then released c0 (err 500 "Transaction failed") []
  else
  let c := begin_transaction c0 in
  match (if f_ins_order f then None
         else insert_order (c_work c) (order_header userId num total pm)) with
  | None => released (rollback c) (err 500 "Failed to create order") []
  | Some (oid, w1) =>
      let c1 := set_work c w1 in
      match (if f_ins_items f then None
             else insert_items w1 (order_items_data oid lines)) with
      | None => released (rollback c1) (err 500 "Failed to add order items") []
      | Some w2 =>
          let c2 := set_work c1 w2 in
          if f_commit f
          then released (rollback c2) (err 500 "Failed to complete order") []
          else released (commit c2) (mk_response 201 (BPlaced oid num total))
                 (notify (f_emit f) [(RAdmins, "order:new"%string, note oid)] log)
      end
  end.

(** [scheduled_at] as [new Date(scheduled_at)] sees it. *)
Inductive sched_in :=
| SchedAbsent                (** missing or falsy *)
| SchedUnparsable            (** [isNaN(orderDate.getTime())] *)
| SchedAt (t : Z).           (** epoch milliseconds *)

(** One element of [req.body.items]. *)
Record item_in := mk_item_in {
  in_item_id : jsv;
  in_quantity : jsv;
  in_price : N
}.

(** The request body.  [rq_items] is [None] when [items] is not an array;
    [rq_payment_method] is [None] when absent or not a string.  [rq_total]
    is a [total] key a client may send: the handler never reads it. *)
Record order_req := mk_order_req {
  rq_items : option (list item_in);
  rq_payment_method : option string;
  rq_order_type : string;
  rq_scheduled_at : sched_in;
  rq_total : option N
}.

(** [for (const item of items) { ... }] *)
Fixpoint check_items (its : list item_in) : string + list (Z * Z * N) :=
  match its with
  | [] => inr []
  | it :: rest =>
      match in_item_id it, in_quantity it with
      | JInt i, JInt q =>
          if negb (jtruthy (in_price it)) then inl "Invalid item data"%string
          else if q <? 1 then inl "Item quantity must be at least 1"%string
          else match check_items rest with
               | inl m => inl m
               | inr ls => inr ((i, q, in_price it) :: ls)
               end
      | _, _ => inl "Invalid item data"%string
      end
  end.

(** The checks of the Main handler, in source order. *)
Definition validate_main (now : Z) (req : order_req)
  : string + (string * list (Z * Z * N)) :=
  let sched_ok :=
    if String.eqb (rq_order_type req) "scheduled" then
      match rq_scheduled_at req with
      | SchedAbsent => Some "Scheduled time is required for scheduled orders."%string
      | SchedUnparsable => Some "Invalid date format for scheduled time."%string
      | SchedAt t => if t <=? now then Some "Scheduled time must be in the future."%string
                     else None
      end
    else None in
  match sched_ok with
  | Some m => inl m
  | None =>
      match rq_items req with
      | None | Some [] => inl "Order must contain at least one item"%string
      | Some its =>
          match rq_payment_method req with
          | None | Some EmptyString => inl "Payment method is required"%string
          | Some pm =>
              match check_items its with
              | inl m => inl m
              | inr lines => inr (pm, lines)
              end
          end
      end
  end.

(** [app.post('/api/orders', ...)] of [backend/server.js], after
    [authenticateToken] and [requireRole('customer')]; [now] is
    [Date.now()], which also makes the order number. *)
Definition create_order_main (d : db N) (f : faults) (now userId : Z)
  (req : order_req) : outcome N :=
  match validate_main now req with
  | inl m => mk_outcome d false (err 400 m) []
  | inr (pm, lines) =>
      let total := server_total lines in
      order_tx d f userId now total pm lines
        (fun oid => PNewOrder oid now total userId)
        (Some "[SOCKET] Failed to emit order:new"%string)
  end.

(** [app.post('/api/orders', ...)] of [part_004]: no validation, the same
    transaction, a silent catch. *)
Definition create_order_alt (d : db N) (f : faults) (now userId : Z)
  (pm : string) (lines : list (Z * Z * N)) : outcome N :=
  let total := server_total lines in
  order_tx d f userId now total pm lines
    (fun oid => PNewOrder oid now total userId) None.

End Create.
End OrderCreate.

(* ------------------------------------------------------------------ *)
(** ** POST /api/menu (Main) *)

Module MenuAdd.
Section Add.
Context {N : Type} `{JsNum N} `{Decimal2 N}.

(** Insert (autocommit), read back the row ([fErr] ignored: a fallback
    object is emitted instead), notify both rooms, answer 201. *)
Definition add_menu_item (d : db N) (f : faults) : outcome N :=
  if f_ins_menu f then mk_outcome d false (err 500 "Failed to add menu item") []
  else
    let newId := next_item_id d in
    let d' := mk_db (menu_ids d ++ [newId]) (newId + 1) (orders d)
                    (order_items d) (next_order_id d) in
    mk_outcome d' false (mk_response 201 (BMenuAdded newId))
      (notify (f_emit f)
         [(RAdmins, "menu:item:add"%string, PMenuItem newId);
          (RCustomers, "menu:item:add"%string, PMenuItem newId)]
         (Some "[SOCKET] Failed to emit menu:item:add"%string)).

End Add.
End MenuAdd.

(* ------------------------------------------------------------------ *)
(** ** PUT /api/admin/orders/:id/status (Alt) *)

Module StatusUpdate.
Section Update.
Context {N : Type} `{JsNum N} `{Decimal2 N}.

(** [if (status && allowedStatus.has(status))]: a field is kept only when
    it is supplied, truthy and in its set. *)
Definition keep_valid (allowed : list string) (v : option string) : option string :=
  match v with
  | Some s => if set_has allowed s then Some s else None
  | None => None
  end.

(** [UPDATE orders SET status = ?, payment_status = ?] on one row, with
    only the kept fields in the SET list. *)
Definition apply_update (s p : option string) (o : order_row N) : order_row N :=
  mk_order_row (or_id o) (or_user o) (or_number o) (or_total o)
    (or_payment_method o)
    (match s with Some v => v | None => or_status o end)
    (match p with Some v => v | None => or_payment_status o end).

Definition is_order (orderId : Z) (o : order_row N) : bool := Z.eqb (or_id o) orderId.

(** The handler after [authenticateToken] and the admin/staff role check.
    [affectedRows] counts the matched rows ([FOUND_ROWS] client flag). *)
Definition update_status (d : db N) (f : faults) (orderId : Z)
  (st ps : option string) : outcome N :=
  let s := keep_valid allowedStatus st in
  let p := keep_valid allowedPayment ps in
  match s, p with
  | None, None => mk_outcome d false (err 400 "No valid fields to update") []
  | _, _ =>
      if f_update f then mk_outcome d false (err 500 "Failed to update order") []
      else if negb (existsb (is_order orderId) (orders d))
      then mk_outcome d false (err 404 "Order not found") []
      else
        let d' := mk_db (menu_ids d) (next_item_id d)
                    (map (fun o => if is_order orderId o then apply_update s p o else o)
                         (orders d))
                    (order_items d) (next_order_id d) in
        if f_fetch f
        then mk_outcome d' false (mk_response 200 (BMessage "Order updated")) []
        else match find (is_order orderId) (orders d') with
             | None => mk_outcome d' false (mk_response 200 (BMessage "Order updated")) []
             | Some o =>
                 mk_outcome d' false (mk_response 200 (BOrderUpdated o))
                   (notify (f_emit f)
                      [(RAdmins, "order:update"%string, POrder o);
                       (RUser (or_user o), "order:update"%string, POrder o)] None)
             end
  end.

End Update.
End StatusUpdate.

(* ------------------------------------------------------------------ *)
(** ** Socket authentication and room joins *)

Module Sockets.

(** The decoded JWT payload; each field may be absent. *)
Record claims := mk_claims {
  cl_userId : option Z;
  cl_username : option string;
  cl_role : option string
}.

(** [socket.handshake.auth?.token] as [jwt.verify] sees it. *)
Inductive token :=
| TokNone
| TokInvalid
| TokValid (c : claims).

Definition truthy_id (v : option Z) : bool :=
  match v with Some z => negb (Z.eqb z 0) | None => false end.

Definition truthy_str (v : option string) : bool :=
  match v with Some s => negb (String.eqb s "") | None => false end.

Definition role_is (c : claims) (r : string) : bool :=
  match cl_role c with Some x => String.eqb x r | None => false end.

(** [io.use] of Main: rejects a missing or invalid token and a payload
    without [userId], [username] or [role]. *)
Definition auth_main (t : token) : option claims :=
  match t with
  | TokValid c =>
      if truthy_id (cl_userId c) && truthy_str (cl_username c) && truthy_str (cl_role c)
      then Some c else None
  | _ => None
  end.

(** [io.on('connection')] of Main: the rooms joined, in order. *)
Definition joins_main (c : claims) : list room :=
  (if role_is c "admin" then [RAdmins] else [RCustomers]) ++
  [RUser (match cl_userId c with Some z => z | None => 0 end)].

(** A connection attempt on Main: rejected, or accepted with its rooms. *)
Definition connect_main (t : token) : option (list room) :=
  match auth_main t with
  | Some c => Some (joins_main c)
  | None => None
  end.

(** [io.use] of Alt: never rejects; [socket.user] is set only when the
    token verifies. *)
Definition auth_alt (t : token) : option claims :=
  match t with
  | TokValid c => Some c
  | _ => None
  end.

(** [io.on('connection')] of Alt. *)
Definition joins_alt (u : option claims) : list room :=
  let admin_or_staff :=
    match u with
    | Some c => role_is c "admin" || role_is c "staff"
    | None => false
    end in
  (if admin_or_staff then [RAdmins] else [RCustomers]) ++
  match u with
  | Some c => match cl_userId c with
              | Some z => if truthy_id (Some z) then [RUser z] else []
              | None => []
              end
  | None => []
  end.

Definition connect_alt (t : token) : list room := joins_alt (auth_alt t).

End Sockets.

(* ------------------------------------------------------------------ *)
(** ** Client reconcilers *)

Module Reconciler.

(** A menu item as cached by [Menu.js] / [AdminDashboard.js]. *)
Record menu_item := mk_menu_item {
  mi_item_id : Z;
  mi_item_name : string;
  mi_is_available : bool
}.

(** [({ item_id })] of a [menu:item:delete] message: [None] is
    [undefined]. *)
Definition strict_neq (id : Z) (v : option Z) : bool :=
  match v with Some z => negb (Z.eqb id z) | None => true end.

(** [handleMenuItemDelete] of [Menu.js] (and of [part_002]). *)
Definition handleMenuItemDelete (item_id : option Z) (prev : list menu_item)
  : list menu_item :=
  match item_id with
  | None => prev
  | Some z => if Z.eqb z 0 then prev
              else filter (fun it => strict_neq (mi_item_id it) item_id) prev
  end.

(** The [menu:item:delete] handler of [AdminDashboard.js]. *)
Definition adminMenuItemDelete (item_id : option Z) (prev : list menu_item)
  : list menu_item :=
  filter (fun it => strict_neq (mi_item_id it) item_id) prev.

Section Orders.
Context {N : Type}.

(** An order as cached by [Orders.js] (a row of [/api/orders/my-orders]). *)
Record cached_order := mk_cached_order {
  co_order_id : Z;
  co_order_number : Z;
  co_total_amount : N;
  co_status : string;
  co_payment_status : string
}.

(** [handleOrderUpdate] of [Orders.js], registered for [order:update]. *)
Definition handleOrderUpdate (update : order_row N) (prev : list cached_order)
  : list cached_order :=
  map (fun o => if Z.eqb (co_order_id o) (or_id update)
                then mk_cached_order (co_order_id o) (co_order_number o)
                       (co_total_amount o) (or_status update)
                       (or_payment_status update)
                else o) prev.

End Orders.
Arguments cached_order : clear implicits.

End Reconciler.

(* ------------------------------------------------------------------ *)
(** ** Menu cache of [Menu.js] *)

Module MenuCache.

(** A JSON value compared with [0], [1] or [true]: a number, a boolean, or
    anything else ([null], a string, ...). *)
Inductive flag :=
| FNum (z : Z)
| FBool (b : bool)
| FOther.

(** A menu item object, from [GET /api/menu] or from a socket message.
    socket.io carries JSON, so a property is either absent ([None]) or
    holds a value; [item_id] is a number when present.  A spread copies
    every own property, so the columns not listed here behave like
    [item_name]. *)
Record menu_obj := mk_menu_obj {
  mo_item_id : option Z;
  mo_item_name : option string;
  mo_category_id : option Z;
  mo_is_available : option flag;
  mo_is_active : option flag
}.

(** [a === b] on two [item_id] properties ([undefined === undefined]). *)
Definition id_eq (a b : option Z) : bool :=
  match a, b with
  | Some x, Some y => Z.eqb x y
  | None, None => true
  | _, _ => false
  end.

(** [v === 0] *)
Definition is_zero (v : option flag) : bool :=
  match v with
  | Some (FNum z) => Z.eqb z 0
  | _ => false
  end.

(** [v === 1 || v === true || v === undefined] *)
Definition is_active_shown (v : option flag) : bool :=
  match v with
  | None => true
  | Some (FNum z) => Z.eqb z 1
  | Some (FBool b) => b
  | Some FOther => false
  end.

(** One property of [{ ...it, ...u }]: [u]'s when [u] has it. *)
Definition over {A : Type} (x y : option A) : option A :=
  match x with Some v => Some v | None => y end.

(** [{ ...it, ...u }] *)
Definition spread (it u : menu_obj) : menu_obj :=
  mk_menu_obj (over (mo_item_id u) (mo_item_id it))
    (over (mo_item_name u) (mo_item_name it))
    (over (mo_category_id u) (mo_category_id it))
    (over (mo_is_available u) (mo_is_available it))
    (over (mo_is_active u) (mo_is_active it)).

(** [filterActiveItems], applied to the list fetched on load. *)
Definition filterActiveItems (items : list menu_obj) : list menu_obj :=
  filter (fun item => is_active_shown (mo_is_active item)) items.

(** [handleMenuItemUpdate]; the message is [None] when [null] or
    [undefined]. *)
Definition handleMenuItemUpdate (updated : option menu_obj) (prev : list menu_obj)
  : list menu_obj :=
  match updated with
  | None => prev
  | Some u =>
      if negb (Sockets.truthy_id (mo_item_id u)) then prev
      else if is_zero (mo_is_active u)
      then filter (fun it => negb (id_eq (mo_item_id it) (mo_item_id u))) prev
      else map (fun it => if id_eq (mo_item_id it) (mo_item_id u) then spread it u else it)
             prev
  end.

(** [handleMenuItemAdd] *)
Definition handleMenuItemAdd (added : option menu_obj) (prev : list menu_obj)
  : list menu_obj :=
  match added with
  | None => prev
  | Some a =>
      if negb (Sockets.truthy_id (mo_item_id a)) then prev
      else if is_zero (mo_is_active a) then prev
      else if existsb (fun it => id_eq (mo_item_id it) (mo_item_id a)) prev
      then map (fun it => if id_eq (mo_item_id it) (mo_item_id a) then spread it a else it)
             prev
      else prev ++ [a]
  end.

(** [handleMenuItemDelete] on these objects: [({ item_id })] of the
    message. *)
Definition handleMenuItemDelete (item_id : option Z) (prev : list menu_obj)
  : list menu_obj :=
  if Sockets.truthy_id item_id
  then filter (fun it => negb (id_eq (mo_item_id it) item_id)) prev
  else prev.

(** The logged-in user as [Menu.js] receives it; [None] is no user. *)
Record user_obj := mk_user_obj { uo_role : option string }.

(** What the message of [cart:add] carries, as the server tests it:
    [payload] and [payload.item] may be falsy, another non-object, or an
    object (arrays included). *)
Inductive cart_item_in :=
| CIFalsy
| CIOther
| CIObject (item_id : jsv) (quantity : jsv).

Inductive cart_payload_in :=
| CPFalsy
| CPOther
| CPObject (item : cart_item_in).

(** A click on "Add to Cart": a toast, or the item handed to
    [onAddToCart] together with the [cart:add] message sent. *)
Inductive cart_click :=
| CartToast (msg : string)
| CartAdded (sent : cart_payload_in).

(** [handleAddToCart].  The message is
    [{item: {item_id, item_name, price, quantity: 1}}]; an absent
    [item_id] is dropped by the JSON encoding. *)
Definition handleAddToCart (user : option user_obj) (item : menu_obj) : cart_click :=
  if is_zero (mo_is_active item)
  then CartToast "This item has been removed from the menu and cannot be ordered."%string
  else match user with
       | None => CartToast "Please login to add items to cart"%string
       | Some u =>
           if match uo_role u with
              | Some r => negb (String.eqb r "customer")
              | None => true
              end
           then CartToast "Admins cannot place orders"%string
           else CartAdded (CPObject (CIObject (match mo_item_id item with
                                               | Some z => JInt z
                                               | None => JNonInt
                                               end) (JInt 1)))
       end.

End MenuCache.

(* ------------------------------------------------------------------ *)
(** ** Lists of [AdminDashboard.js] *)

Module AdminCache.
Import MenuCache.

Section Keyed.
Context {A : Type} (key : A -> option Z).

(** [prev.some(x => x.k === n.k) ? prev : [...prev, n]] *)
Definition add_if_absent (n : A) (prev : list A) : list A :=
  if existsb (fun x => id_eq (key x) (key n)) prev then prev else prev ++ [n].

(** [prev.map(x => (x.k === u.k ? u : x))] *)
Definition replace_by_key (u : A) (prev : list A) : list A :=
  map (fun x => if id_eq (key x) (key u) then u else x) prev.

End Keyed.

(** The [menu:item:add] and [menu:item:update] handlers. *)
Definition adminMenuItemAdd (newItem : menu_obj) (prev : list menu_obj) : list menu_obj :=
  add_if_absent mo_item_id newItem prev.

Definition adminMenuItemUpdate (updated : menu_obj) (prev : list menu_obj)
  : list menu_obj :=
  replace_by_key mo_item_id updated prev.

(** An order object of the dashboard list: a row of [/api/admin/orders]
    or the payload of an [order:new] or [order:update] message. *)
Record order_obj := mk_order_obj {
  oo_order_id : option Z;
  oo_orderId : option Z;
  oo_status : option string;
  oo_payment_status : option string
}.

(** The JSON object a payload becomes: [order:new] carries
    [{orderId, orderNumber, totalAmount, userId, ...}], [order:update] the
    [orders] row. *)
Definition order_obj_of_payload {N : Type} (p : payload N) : order_obj :=
  match p with
  | PNewOrder oid _ _ _ => mk_order_obj None (Some oid) None None
  | POrder o => mk_order_obj (Some (or_id o)) None (Some (or_status o))
                  (Some (or_payment_status o))
  | PMenuItem _ => mk_order_obj None None None None
  end.

(** The [order:new] and [order:update] handlers. *)
Definition adminOrderNew (newOrder : order_obj) (prev : list order_obj) : list order_obj :=
  newOrder :: prev.

Definition adminOrderUpdate (updated : order_obj) (prev : list order_obj)
  : list order_obj :=
  replace_by_key oo_order_id updated prev.

End AdminCache.

(* ------------------------------------------------------------------ *)
(** ** Socket event [cart:add] *)

Module Cart.
Import MenuCache.

(** The [cart:activity] message: [userId] ([None] is [null]),
    [username], and [item] ([None] is [null]). *)
Record cart_activity := mk_cart_activity {
  ca_userId : option Z;
  ca_username : option string;
  ca_item : option cart_item_in
}.

Inductive cart_out :=
| CEmit (r : room) (ev : string) (a : cart_activity)
| CWarn (msg : string).

(** The handler of Main, on a socket authenticated with claims [u]; the
    warnings end with the user id. *)
Definition cart_add_main (u : Sockets.claims) (payload : cart_payload_in) : list cart_out :=
  match payload with
  | CPObject item =>
      match item with
      | CIObject (JInt id) q =>
          [CEmit RAdmins "cart:activity"
             (mk_cart_activity (Sockets.cl_userId u) (Sockets.cl_username u)
                (Some (CIObject (JInt id)
                         (JInt (match q with JInt z => z | JNonInt => 1 end)))))]
      | _ => [CWarn "[SECURITY] Malformed item data from user"%string]
      end
  | _ => [CWarn "[SECURITY] Invalid cart:add payload from user"%string]
  end.

(** The handler of Alt; [u] is [socket.user], absent on an unauthenticated
    socket. *)
Definition cart_add_alt (u : option Sockets.claims) (payload : cart_payload_in)
  : list cart_out :=
  let uid := match u with
             | Some c => if Sockets.truthy_id (Sockets.cl_userId c)
                         then Sockets.cl_userId c else None
             | None => None
             end in
  let uname := match u with
               | Some c => if Sockets.truthy_str (Sockets.cl_username c)
                           then Sockets.cl_username c else Some "guest"%string
               | None => Some "guest"%string
               end in
  let item := match payload with
              | CPObject CIFalsy => None
              | CPObject i => Some i
              | _ => None
              end in
  [CEmit RAdmins "cart:activity" (mk_cart_activity uid uname item)].

End Cart.

(* ------------------------------------------------------------------ *)
(** ** [String.prototype.trim] on ASCII text *)

Definition js_ws (c : Ascii.ascii) : bool :=
  let n := Ascii.nat_of_ascii c in
  (Nat.eqb n 32 || (Nat.leb 9 n && Nat.leb n 13))%bool.

Fixpoint drop_ws (l : list Ascii.ascii) : list Ascii.ascii :=
  match l with
  | c :: r => if js_ws c then drop_ws r else l
  | [] => []
  end.

Definition js_trim (s : string) : string :=
  string_of_list_ascii (rev (drop_ws (rev (drop_ws (list_ascii_of_string s))))).

(* ------------------------------------------------------------------ *)
(** ** Category routes (Alt) *)

Module Category.

Record category_row := mk_category_row {
  cat_id : Z;
  cat_name : string;
  cat_active : Z
}.

Record cat_store := mk_cat_store {
  cats : list category_row;
  next_cat_id : Z
}.

(** [category_name] of the body: falsy or absent, a string, or another
    truthy value (a number, an object). *)
Inductive name_in :=
| NFalsy
| NStr (s : string)
| NOther.

(** Failures of the queries: the write, and the read-back [SELECT].  The
    single emit sits in a [try] with an empty [catch]: a throw changes
    nothing else. *)
Record cat_faults := mk_cat_faults {
  cf_write : bool;
  cf_fetch : bool
}.

(** The object emitted: the row read back, or the handler's fallback
    object, whose [category_name] may be absent. *)
Record cat_msg := mk_cat_msg {
  cm_id : Z;
  cm_name : option string;
  cm_active : Z
}.

Definition msg_of_row (c : category_row) : cat_msg :=
  mk_cat_msg (cat_id c) (Some (cat_name c)) (cat_active c).

Record cat_outcome := mk_cat_outcome {
  cres_store : cat_store;
  cres_status : Z;
  cres_emits : list (room * string * cat_msg)
}.

(** [app.post('/api/categories', ...)] of [part_004], after the role check;
    [is_active] is [None] when absent and otherwise its truthiness.
    [category_name.trim] on a truthy non-string throws a [TypeError],
    answered 500 by Express. *)
Definition create_category_alt (d : cat_store) (f : cat_faults) (name : name_in)
  (is_active : option bool) : cat_outcome :=
  match name with
  | NFalsy => mk_cat_outcome d 400 []
  | NOther => mk_cat_outcome d 500 []
  | NStr s =>
      if String.eqb s "" || String.eqb (js_trim s) "" then mk_cat_outcome d 400 []
      else
        let active := if match is_active with Some b => b | None => false end
                      then 1 else 1 in
        if cf_write f then mk_cat_outcome d 500 []
        else
          let newId := next_cat_id d in
          let row := mk_category_row newId (js_trim s) active in
          let d' := mk_cat_store (cats d ++ [row]) (newId + 1) in
          let cat := if cf_fetch f then mk_cat_msg newId (Some s) active
                     else msg_of_row row in
          mk_cat_outcome d' 201 [(RAdmins, "category:add"%string, cat)]
  end.

(** [UPDATE categories SET ... WHERE category_id = ?] with the kept
    fields. *)
Definition apply_cat (nm : option string) (act : option Z) (c : category_row)
  : category_row :=
  mk_category_row (cat_id c)
    (match nm with Some v => v | None => cat_name c end)
    (match act with Some v => v | None => cat_active c end).

Definition is_cat (catId : Z) (c : category_row) : bool := Z.eqb (cat_id c) catId.

(** [app.put('/api/categories/:id', ...)] of [part_004], after the role
    check; [catId] is [req.params.id] as MySQL compares it; [affectedRows]
    counts the matched rows. *)
Definition update_category_alt (d : cat_store) (f : cat_faults) (catId : Z)
  (name : name_in) (is_active : option bool) : cat_outcome :=
  let nm := match name with
            | NStr s => if String.eqb (js_trim s) "" then None else Some (js_trim s)
            | _ => None
            end in
  let act := match is_active with
             | Some b => Some (if b then 1 else 0)
             | None => None
             end in
  match nm, act with
  | None, None => mk_cat_outcome d 400 []
  | _, _ =>
      if cf_write f then mk_cat_outcome d 500 []
      else if negb (existsb (is_cat catId) (cats d)) then mk_cat_outcome d 404 []
      else
        let d' := mk_cat_store
                    (map (fun c => if is_cat catId c then apply_cat nm act c else c) (cats d))
                    (next_cat_id d) in
        let fallback := mk_cat_msg catId None
                          (if match is_active with Some b => b | None => false end
                           then 1 else 0) in
        let cat := if cf_fetch f then fallback
                   else match find (is_cat catId) (cats d') with
                        | Some c => msg_of_row c
                        | None => fallback
                        end in
        mk_cat_outcome d' 200 [(RAdmins, "category:update"%string, cat)]
  end.

End Category.

(* ------------------------------------------------------------------ *)
(** ** Catalogue writes of both servers and their notifications *)

Module Publish.
Import Category.

(** What a [try { io.to(r1).emit(..); ... } catch (_e) { ... }] block
    leaves behind, for emitted objects of type [P]: each emit reached, and
    the catch block's warning, if it has one. *)
Inductive geffect (P : Type) :=
| GEmit (r : room) (ev : string) (p : P)
| GLog (msg : string).

Arguments GEmit {P} r ev p.
Arguments GLog {P} msg.

Section Gen.
Context {P : Type}.

(** The block's statements in order; the first emit that throws ends it.
    The boolean says whether the block threw. *)
Fixpoint gtry_emits (fe : room -> bool) (es : list (room * string * P))
  : list (geffect P) * bool :=
  match es with
  | [] => ([], false)
  | (r, ev, p) :: rest =>
      if fe r then ([GEmit r ev p], true)
      else let '(tr, threw) := gtry_emits fe rest in (GEmit r ev p :: tr, threw)
  end.

(** [catch (_e) { console.warn(m) }] when [log = Some m] (Main),
    [catch (_e) {}] when [log = None] (Alt). *)
Definition gnotify (fe : room -> bool) (es : list (room * string * P))
  (log : option string) : list (geffect P) :=
  let '(tr, threw) := gtry_emits fe es in
  tr ++ match log with
        | Some m => if threw then [GLog m] else []
        | None => []
        end.

End Gen.

(** Result of a request: the store once the handler is done, the HTTP
    status and body, and the socket/log effects. *)
Record route_outcome (S B P : Type) := mk_route_outcome {
  ro_store : S;
  ro_status : Z;
  ro_body : B;
  ro_trace : list (geffect P)
}.

Arguments mk_route_outcome {S B P} _ _ _ _.
Arguments ro_store {S B P} _.
Arguments ro_status {S B P} _.
Arguments ro_body {S B P} _.
Arguments ro_trace {S B P} _.

(** What the client and the store see of a request. *)
Definition rvisible {S B P} (o : route_outcome S B P) : S * Z * B :=
  (ro_store o, ro_status o, ro_body o).

(** Failures these routes handle: the write query, the read-back
    [SELECT] (whose [fErr] is ignored) and, per room, a throwing emit. *)
Record pub_faults := mk_pub_faults {
  pf_write : bool;
  pf_fetch : bool;
  pf_emit : room -> bool
}.

Definition pf_with_emit (f : pub_faults) (e : room -> bool) : pub_faults :=
  mk_pub_faults (pf_write f) (pf_fetch f) e.

(** [req.user.role] is ['admin'] or ['staff'] (the role check of Alt). *)
Definition staff_side (role : string) : bool :=
  String.eqb role "admin" || String.eqb role "staff".

Section Menu.
Context {N : Type} `{Decimal2 N}.

(** A row of [menu_items]: the columns the routes write. *)
Record menu_row := mk_menu_row {
  mi_id : Z;
  mi_category : option Z;
  mi_name : string;
  mi_price : N;
  mi_available : Z
}.

(** [menu_items], and for the [ON DELETE RESTRICT] foreign key of
    [order_items] the item ids some line item refers to. *)
Record menu_store := mk_menu_store {
  menu : list menu_row;
  next_menu_id : Z;
  ordered_ids : list Z
}.

(** The values an UPDATE writes: [category_id || null] (Main) or
    [safeCategoryId] (Alt), [item_name], [price] (Alt: [Number(price)]),
    [is_available ? 1 : 0]. *)
Record menu_set := mk_menu_set {
  ms_category : option Z;
  ms_name : string;
  ms_price : N;
  ms_available : Z
}.

(** The object emitted: the row read back, or the handler's fallback. *)
Inductive menu_msg :=
| MRow (r : menu_row)
| MUpdateFallback (itemId : Z) (available : Z)   (** [{ item_id, is_available }] *)
| MAddFallback (itemId : Z)                       (** [{ item_id: newId, ... }] as sent *)
| MDeleted (itemId : Z).                          (** [{ item_id }] *)

Inductive menu_body :=
| MBError (msg : string)
| MBAdded (itemId : Z)
| MBUpdated (item : menu_msg)
| MBMessage (msg : string).

Definition menu_outcome := route_outcome menu_store menu_body menu_msg.

Definition is_item (itemId : Z) (r : menu_row) : bool := Z.eqb (mi_id r) itemId.

(** [UPDATE menu_items SET category_id = ?, item_name = ?, price = ?,
    is_available = ? WHERE item_id = ?]; [price] is a DECIMAL(10,2). *)
Definition set_row (s : menu_set) (r : menu_row) : menu_row :=
  mk_menu_row (mi_id r) (ms_category s) (ms_name s) (dec2 (ms_price s)) (ms_available s).

Definition update_rows (itemId : Z) (s : menu_set) (d : menu_store) : menu_store :=
  mk_menu_store (map (fun r => if is_item itemId r then set_row s r else r) (menu d))
    (next_menu_id d) (ordered_ids d).

Definition delete_rows (itemId : Z) (d : menu_store) : menu_store :=
  mk_menu_store (filter (fun r => negb (is_item itemId r)) (menu d))
    (next_menu_id d) (ordered_ids d).

(** [rows && rows[0] ? rows[0] : { item_id: itemId, is_available }]. *)
Definition read_back (f : pub_faults) (itemId : Z) (avail : Z) (d : menu_store) : menu_msg :=
  if pf_fetch f then MUpdateFallback itemId avail
  else match find (is_item itemId) (menu d) with
       | Some r => MRow r
       | None => MUpdateFallback itemId avail
       end.

(** [app.put('/api/menu/:id', ...)] of Main, after [validateMenuItem];
    [itemId] is [parseInt(req.params.id)], [None] when [NaN];
    [affectedRows] counts the matched rows. *)
Definition update_menu_item_main (d : menu_store) (f : pub_faults) (itemId : option Z)
  (s : menu_set) : menu_outcome :=
  match itemId with
  | None => mk_route_outcome d 400 (MBError "Invalid item ID") []
  | Some id =>
      if pf_write f then mk_route_outcome d 500 (MBError "Failed to update menu item") []
      else if negb (existsb (is_item id) (menu d))
      then mk_route_outcome d 404 (MBError "Menu item not found") []
      else
        let d' := update_rows id s d in
        let updated := read_back f id (ms_available s) d' in
        mk_route_outcome d' 200 (MBUpdated updated)
          (gnotify (pf_emit f)
             [(RAdmins, "menu:item:update"%string, updated);
              (RCustomers, "menu:item:update"%string, updated)]
             (Some "[SOCKET] Failed to emit menu:item:update"%string))
  end.

(** [app.delete('/api/menu/:id', ...)] of Main.  The DELETE fails when a
    line item still refers to the item ([ON DELETE RESTRICT]) or on any
    other error. *)
Definition delete_menu_item_main (d : menu_store) (f : pub_faults) (itemId : option Z)
  : menu_outcome :=
  match itemId with
  | None => mk_route_outcome d 400 (MBError "Invalid item ID") []
  | Some id =>
      if pf_write f || existsb (Z.eqb id) (ordered_ids d)
      then mk_route_outcome d 500 (MBError "Failed to delete menu item") []
      else if negb (existsb (is_item id) (menu d))
      then mk_route_outcome d 404 (MBError "Menu item not found") []
      else
        mk_route_outcome (delete_rows id d) 200
          (MBMessage "Menu item deleted successfully")
          (gnotify (pf_emit f)
             [(RAdmins, "menu:item:delete"%string, MDeleted id);
              (RCustomers, "menu:item:delete"%string, MDeleted id)]
             (Some "[SOCKET] Failed to emit menu:item:delete"%string))
  end.

(** [app.post('/api/menu', ...)] of Alt.  [name] is [item_name] ([""]
    when falsy); [price] is [safePrice], [None] when [NaN]; [cat] is
    [safeCategoryId]; [is_available] takes the column default. *)
Definition add_menu_item_alt (d : menu_store) (f : pub_faults) (role : string)
  (name : string) (price : option N) (cat : option Z) : menu_outcome :=
  if negb (staff_side role) then mk_route_outcome d 403 (MBError "Access denied") []
  else
    match price with
    | None => mk_route_outcome d 400 (MBError "Invalid menu item data") []
    | Some p =>
        if String.eqb name "" then mk_route_outcome d 400 (MBError "Invalid menu item data") []
        else if pf_write f then mk_route_outcome d 500 (MBError "Failed to add menu item") []
        else
          let newId := next_menu_id d in
          let row := mk_menu_row newId cat name (dec2 p) 1 in
          let d' := mk_menu_store (menu d ++ [row]) (newId + 1) (ordered_ids d) in
          let newItem := if pf_fetch f then MAddFallback newId else MRow row in
          mk_route_outcome d' 201 (MBAdded newId)
            (gnotify (pf_emit f)
               [(RAdmins, "menu:item:add"%string, newItem);
                (RCustomers, "menu:item:add"%string, newItem)] None)
    end.

(** [app.put('/api/menu/:id', ...)] of Alt: no [affectedRows] check;
    [itemId] is [req.params.id] as MySQL compares it. *)
Definition update_menu_item_alt (d : menu_store) (f : pub_faults) (role : string)
  (itemId : Z) (name : string) (price : option N) (cat : option Z) (avail : Z)
  : menu_outcome :=
  if negb (staff_side role) then mk_route_outcome d 403 (MBError "Access denied") []
  else
    match price with
    | None => mk_route_outcome d 400 (MBError "Invalid menu item data") []
    | Some p =>
        if String.eqb name "" then mk_route_outcome d 400 (MBError "Invalid menu item data") []
        else if pf_write f then mk_route_outcome d 500 (MBError "Failed to update menu item") []
        else
          let d' := update_rows itemId (mk_menu_set cat name p avail) d in
          let updated := read_back f itemId avail d' in
          mk_route_outcome d' 200 (MBMessage "Menu item updated successfully")
            (gnotify (pf_emit f)
               [(RAdmins, "menu:item:update"%string, updated);
                (RCustomers, "menu:item:update"%string, updated)] None)
    end.

(** [app.delete('/api/menu/:id', ...)] of Alt. *)
Definition delete_menu_item_alt (d : menu_store) (f : pub_faults) (role : string)
  (itemId : Z) : menu_outcome :=
  if negb (staff_side role) then mk_route_outcome d 403 (MBError "Access denied") []
  else if pf_write f || existsb (Z.eqb itemId) (ordered_ids d)
  then mk_route_outcome d 500 (MBError "Failed to delete menu item") []
  else if negb (existsb (is_item itemId) (menu d))
  then mk_route_outcome d 404 (MBError "Menu item not found") []
  else
    mk_route_outcome (delete_rows itemId d) 200
      (MBMessage "Menu item deleted successfully")
      (gnotify (pf_emit f)
         [(RAdmins, "menu:item:delete"%string, MDeleted itemId);
          (RCustomers, "menu:item:delete"%string, MDeleted itemId)] None).

End Menu.

Arguments menu_store : clear implicits.
Arguments menu_msg : clear implicits.
Arguments menu_body : clear implicits.

(** [is_active] of a category request body, as validated by
    [isBoolean]: absent, the boolean [false], or another value, truthy or
    falsy. *)
Inductive act_in :=
| AAbsent
| AFalse
| ATruthy
| AFalsy.

(** The object emitted by Main: a category, or [{ category_id }]. *)
Inductive cat_note :=
| CNCat (m : cat_msg)
| CNId (catId : Z).

Inductive cat_body :=
| CBError (msg : string)
| CBCat (m : cat_msg)
| CBMessage (msg : string).

Definition cat_route_outcome := route_outcome cat_store cat_body cat_note.

(** [app.post('/api/categories', ...)] of Main, after [validateCategory]
    ([name] is the trimmed [category_name]);
    [active = is_active !== false ? 1 : 0]. *)
Definition create_category_main (d : cat_store) (f : pub_faults) (name : string)
  (a : act_in) : cat_route_outcome :=
  let active := match a with AFalse => 0 | _ => 1 end in
  if pf_write f then mk_route_outcome d 500 (CBError "Failed to create category") []
  else
    let newId := next_cat_id d in
    let row := mk_category_row newId name active in
    let d' := mk_cat_store (cats d ++ [row]) (newId + 1) in
    let cat := if pf_fetch f then mk_cat_msg newId (Some name) active
               else msg_of_row row in
    mk_route_outcome d' 201 (CBCat cat)
      (gnotify (pf_emit f) [(RAdmins, "category:add"%string, CNCat cat)]
         (Some "[SOCKET] Failed to emit category:add"%string)).

(** [app.put('/api/categories/:id', ...)] of Main; [catId] is
    [parseInt(req.params.id)], [None] when [NaN]. *)
Definition update_category_main (d : cat_store) (f : pub_faults) (catId : option Z)
  (name : string) (a : act_in) : cat_route_outcome :=
  match catId with
  | None => mk_route_outcome d 400 (CBError "Invalid category ID") []
  | Some id =>
      let nm := if String.eqb (js_trim name) "" then None else Some (js_trim name) in
      let act := match a with
                 | AAbsent => None
                 | ATruthy => Some 1
                 | AFalse | AFalsy => Some 0
                 end in
      match nm, act with
      | None, None => mk_route_outcome d 400 (CBError "No valid fields to update") []
      | _, _ =>
          if pf_write f then mk_route_outcome d 500 (CBError "Failed to update category") []
          else if negb (existsb (is_cat id) (cats d))
          then mk_route_outcome d 404 (CBError "Category not found") []
          else
            let d' := mk_cat_store
                        (map (fun c => if is_cat id c then apply_cat nm act c else c) (cats d))
                        (next_cat_id d) in
            let cat := if pf_fetch f then None
                       else option_map msg_of_row (find (is_cat id) (cats d')) in
            mk_route_outcome d' 200
              (match cat with Some c => CBCat c | None => CBMessage "Category updated" end)
              (gnotify (pf_emit f)
                 [(RAdmins, "category:update"%string,
                   match cat with Some c => CNCat c | None => CNId id end)]
                 (Some "[SOCKET] Failed to emit category:update"%string))
      end
  end.

End Publish.

(* ------------------------------------------------------------------ *)
(** ** POST /api/auth/register (Main) *)

Module Register.

Record user_row := mk_user_row {
  u_id : Z;
  u_username : string;
  u_email : string;
  u_role : string
}.

Record user_store := mk_user_store {
  users : list user_row;
  next_user_id : Z
}.

(** The body.  [rg_email_ok] is the answer of the library's [isEmail]. *)
Record reg_req := mk_reg_req {
  rg_username : string;
  rg_email : string;
  rg_email_ok : bool;
  rg_password : string;
  rg_role : option string
}.

Record reg_faults := mk_reg_faults {
  rf_count : bool;
  rf_insert : bool
}.

(** The answer; [rr_token] is the JWT issued, seen as socket claims: its
    payload is [{ user_id, role }]. *)
Record reg_resp := mk_reg_resp {
  rr_status : Z;
  rr_msg : string;
  rr_token : option Sockets.token
}.

(** The checks of the validation chain, in declaration order; the answer
    carries the first message. *)
Definition reg_errors (r : reg_req) : list string :=
  (if Nat.ltb (String.length (js_trim (rg_username r))) 3
   then ["Username must be at least 3 characters"%string] else []) ++
  (if rg_email_ok r then [] else ["Invalid email address"%string]) ++
  (if Nat.ltb (String.length (rg_password r)) 6
   then ["Password must be at least 6 characters"%string] else []) ++
  (match rg_role r with
   | Some x => if String.eqb x "customer" || String.eqb x "admin" then []
               else ["Invalid role specified"%string]
   | None => []
   end).

Definition admin_count (s : user_store) : nat :=
  List.length (filter (fun u => String.eqb (u_role u) "admin") (users s)).

(** What the request reaches before the [INSERT]: an answer, or the role
    to insert. *)
Inductive reg_step :=
| RAnswer (resp : reg_resp)
| RInsert (role : string).

Definition reg_check (s : user_store) (f : reg_faults) (r : reg_req) : reg_step :=
  match reg_errors r with
  | m :: _ => RAnswer (mk_reg_resp 400 m None)
  | [] =>
      let finalRole := match rg_role r with
                       | Some x => if String.eqb x "admin" then "admin"%string
                                   else "customer"%string
                       | None => "customer"%string
                       end in
      if String.eqb finalRole "admin" then
        if rf_count f
        then RAnswer (mk_reg_resp 500 "Database error during admin limit check" None)
        else if Nat.leb 2 (admin_count s)
        then RAnswer (mk_reg_resp 403
               "Admin registration failed: Maximum of 2 admin accounts allowed." None)
        else RInsert finalRole
      else RInsert finalRole
  end.

(** [executeRegistration(roleToInsert)]: the INSERT, refused on the
    UNIQUE username and email; the stored username is the trimmed one. *)
Definition reg_insert (s : user_store) (f : reg_faults) (r : reg_req) (role : string)
  : user_store * reg_resp :=
  let name := js_trim (rg_username r) in
  if existsb (fun u => String.eqb (u_username u) name || String.eqb (u_email u) (rg_email r))
             (users s)
  then (s, mk_reg_resp 409 "Username or email already exists" None)
  else if rf_insert f then (s, mk_reg_resp 500 "Registration failed" None)
  else
    let uid := next_user_id s in
    (mk_user_store (users s ++ [mk_user_row uid name (rg_email r) role]) (uid + 1),
     mk_reg_resp 201 "User registered successfully"
       (Some (Sockets.TokValid (Sockets.mk_claims None None (Some role))))).

(** The route, when the count query and the INSERT run back to back. *)
Definition register_main (s : user_store) (f : reg_faults) (r : reg_req)
  : user_store * reg_resp :=
  match reg_check s f r with
  | RAnswer resp => (s, resp)
  | RInsert role => reg_insert s f r role
  end.

End Register.

(* ------------------------------------------------------------------ *)
(** ** A concrete number representation for examples

    Integer amounts (e.g. cents); truthy unless zero. *)

#[export] Instance JsNum_Z : JsNum Z := {
  jadd := Z.add;
  jmul := Z.mul;
  jzero := 0;
  jofZ := fun z => z;
  jtruthy := fun z => negb (Z.eqb z 0)
}.

(** Amounts in whole cents are already exact at two decimals. *)
#[export] Instance Decimal2_Z : Decimal2 Z := {
  dec2 := fun z => z
}.

(* ------------------------------------------------------------------ *)
(** ** Sample data *)

Module Samples.
Import OrderCreate.

(** A store with one menu item (id 7) and no orders. *)
Definition store7 : db Z := mk_db [7] 8 [] [] 1.

(** [{items: [{item_id: id, quantity: 2, price: 500}],
      payment_method: "cash"}]. *)
Definition one_item_req (id : Z) : order_req (N:=Z) :=
  mk_order_req (Some [mk_item_in (JInt id) (JInt 2) 500]) (Some "cash"%string)
    "asap" SchedAbsent None.

(** A store holding order 1 of user 42, already [completed] and [paid]. *)
Definition store_done : db Z :=
  mk_db [7] 8 [mk_order_row 1 42 1000 1000 "cash" "completed" "paid"]
        [mk_item_row 1 7 2 500 1000] 2.

(** The same order still [pending] / [pending]. *)
Definition store_pending : db Z :=
  mk_db [7] 8 [mk_order_row 1 42 1000 1000 "cash" "pending" "pending"]
        [mk_item_row 1 7 2 500 1000] 2.

(** The read-back [SELECT] after the UPDATE fails. *)
Definition fetch_fails : faults :=
  mk_faults false false false false false false false true (fun _ => false).

(** The commit of the order transaction fails. *)
Definition commit_fails : faults :=
  mk_faults false false false false true false false false (fun _ => false).

(** Every [io.to(..).emit(..)] throws. *)
Definition emit_fails : faults :=
  mk_faults false false false false false false false false (fun _ => true).

(** JWT payloads as issued by the login route. *)
Definition staff_claims : Sockets.claims :=
  Sockets.mk_claims (Some 5) (Some "staff1"%string) (Some "staff"%string).

Definition admin_claims : Sockets.claims :=
  Sockets.mk_claims (Some 1) (Some "admin"%string) (Some "admin"%string).

End Samples.

Module MoreSamples.
Import MenuCache.

(** Cached menu items: [is_active] absent, set to [0], set to [1]. *)
Definition samosa : menu_obj :=
  mk_menu_obj (Some 7) (Some "Samosa"%string) (Some 1) (Some (FNum 1)) None.

Definition samosa_removed : menu_obj :=
  mk_menu_obj (Some 7) None None None (Some (FNum 0)).

Definition tea : menu_obj :=
  mk_menu_obj (Some 8) (Some "Tea"%string) (Some 2) (Some (FNum 1)) (Some (FNum 1)).

Definition customer_user : user_obj := mk_user_obj (Some "customer"%string).

Definition customer_claims : Sockets.claims :=
  Sockets.mk_claims (Some 42) (Some "cust"%string) (Some "customer"%string).

(** One category, [Snacks]. *)
Definition snacks : Category.cat_store :=
  Category.mk_cat_store [Category.mk_category_row 1 "Snacks" 1] 2.

Definition no_cat_faults : Category.cat_faults := Category.mk_cat_faults false false.

(** A user store with one admin, and registration bodies. *)
Definition one_admin : Register.user_store :=
  Register.mk_user_store [Register.mk_user_row 1 "root" "root@grabngo.io" "admin"] 2.

Definition two_admins : Register.user_store :=
  Register.mk_user_store [Register.mk_user_row 1 "root" "root@grabngo.io" "admin";
                          Register.mk_user_row 2 "boss" "boss@grabngo.io" "admin"] 3.

Definition no_reg_faults : Register.reg_faults := Register.mk_reg_faults false false.

Definition reg_body (name : string) (role : option string) : Register.reg_req :=
  Register.mk_reg_req name (name ++ "@grabngo.io") true "secret12" role.

End MoreSamples.

(** Exact rationals as a number representation: every value used below
    is a dyadic fraction, so IEEE doubles compute the same sums and
    products exactly. *)
Module DecimalSamples.
Import OrderCreate.
Import QArith.

#[export] Instance JsNum_Q : JsNum Q := {
  jadd := Qplus;
  jmul := Qmult;
  jzero := 0%Q;
  jofZ := inject_Z;
  jtruthy := fun x => negb (Qeq_bool x 0)
}.

(** MySQL's rounding of an exact value into DECIMAL(10,2): to the nearest
    hundredth, halves away from zero. *)
Definition round2 (x : Q) : Z :=
  let m := (100 * Qnum x)%Z in
  let d := Zpos (Qden x) in
  (if 0 <=? m then (2 * m + d) / (2 * d) else - ((- 2 * m + d) / (2 * d)))%Z.

#[export] Instance Decimal2_Q : Decimal2 Q := {
  dec2 := fun x => Qmake (round2 x) 100
}.

(** A menu holding item 7 only, no order yet. *)
Definition qstore : db Q := mk_db [7%Z] 8%Z [] [] 1%Z.

(** Two lines of item 7 at price 0.125, quantity 1 each. *)
Definition two_eighths_req : order_req (N:=Q) :=
  mk_order_req (Some [mk_item_in (JInt 7) (JInt 1) (1 # 8)%Q;
                      mk_item_in (JInt 7) (JInt 1) (1 # 8)%Q])
    (Some "cash"%string) "asap" SchedAbsent None.

(** One line of item 7 at price 0.125, quantity 3. *)
Definition three_eighths_req : order_req (N:=Q) :=
  mk_order_req (Some [mk_item_in (JInt 7) (JInt 3) (1 # 8)%Q])
    (Some "cash"%string) "asap" SchedAbsent None.

End DecimalSamples.

(* ------------------------------------------------------------------ *)
(** ** Observations used by the statements *)

Section Observe.
Context {N : Type} `{JsNum N} `{Decimal2 N}.

(** The socket emits of a trace, in order. *)
Fixpoint emits_of (tr : list (effect N)) : list (room * string * payload N) :=
  match tr with
  | [] => []
  | Emit r ev p :: rest => (r, ev, p) :: emits_of rest
  | Log _ :: rest => emits_of rest
  end.

(** Sum of the [subtotal] column over some [order_items] rows, in row
    order. *)
Definition sum_subtotals (rows : list (item_row N)) : N :=
  fold_left (fun s ir => jadd s (ir_subtotal ir)) rows jzero.

Definition items_of_order (oid : Z) (d : db N) : list (item_row N) :=
  filter (fun ir => Z.eqb (ir_order ir) oid) (order_items d).

(** Every stored order and line item refers to an id below the
    AUTO_INCREMENT counter. *)
Definition ids_fresh (d : db N) : Prop :=
  Forall (fun o => or_id o < next_order_id d) (orders d) /\
  Forall (fun ir => ir_order ir < next_order_id d) (order_items d).

(** A failed request: nothing committed, no transaction left open on the
    pooled connection, a 500 with an error body, no notification. *)
Definition tx_failed (d : db N) (o : outcome N) : Prop :=
  out_db o = d /\ out_open_tx o = false /\ status (out_resp o) = 500 /\
  (exists m, rbody (out_resp o) = BError m) /\ out_trace o = [].

Definition with_client_total (req : OrderCreate.order_req (N:=N)) (t : option N)
  : OrderCreate.order_req :=
  OrderCreate.mk_order_req (OrderCreate.rq_items req)
    (OrderCreate.rq_payment_method req) (OrderCreate.rq_order_type req)
    (OrderCreate.rq_scheduled_at req) t.

End Observe.

(** The cached menu holds no item whose [is_active] is [0]. *)
Definition no_removed (c : list MenuCache.menu_obj) : Prop :=
  forall it, In it c -> MenuCache.is_zero (MenuCache.mo_is_active it) = false.

Section ObserveItems.
Context {N : Type} `{JsNum N} `{Decimal2 N}.

(** An element of [items] that passes the checks of the validation loop,
    and the tuple the handler then uses. *)
Definition valid_item (it : OrderCreate.item_in (N:=N)) : bool :=
  match OrderCreate.in_item_id it, OrderCreate.in_quantity it with
  | JInt _, JInt q => jtruthy (OrderCreate.in_price it) && (1 <=? q)
  | _, _ => false
  end.

Definition line_of (it : OrderCreate.item_in (N:=N)) : Z * Z * N :=
  match OrderCreate.in_item_id it, OrderCreate.in_quantity it with
  | JInt i, JInt q => (i, q, OrderCreate.in_price it)
  | _, _ => (0, 0, OrderCreate.in_price it)
  end.

End ObserveItems.

(* ================================================================== *)
(** * Properties *)

Section Props.
Context {N : Type} `{JsNum N} `{Decimal2 N}.

Import OrderCreate.

Ltac failed_branch :=
  cbn; intros; unfold tx_failed; cbn; repeat split; try (eexists; reflexivity).

(** Every branch of the order transaction other than the committed one
    leaves the committed database as it was. *)
Lemma order_tx_not_success (d : db N) f uid num tot pm lines note log :
  status (out_resp (order_tx d f uid num tot pm lines note log)) <> 201 ->
  tx_failed d (order_tx d f uid num tot pm lines note log).
Proof.
  unfold order_tx.
  destruct (f_conn f); [failed_branch|].
  destruct (f_begin f); [failed_branch|].
  destruct (if f_ins_order f then None else _) as [[oid w1]|]; [|failed_branch].
  destruct (if f_ins_items f then None else _) as [w2|]; [|failed_branch].
  destruct (f_commit f); [failed_branch|].
  cbn; intros Hs; congruence.
Qed.

(** A failing header insert, line-items insert or commit never answers
    201. *)
Lemma order_tx_step_fault (d : db N) f uid num tot pm lines note log :
  f_ins_order f = true \/ f_ins_items f = true \/ f_commit f = true ->
  status (out_resp (order_tx d f uid num tot pm lines note log)) <> 201.
Proof.
  intros Hf. unfold order_tx.
  destruct (f_conn f); [cbn; congruence|].
  destruct (f_begin f); [cbn; congruence|].
  destruct (f_ins_order f) eqn:Ho; [cbn; congruence|].
  destruct (insert_order _ _) as [[oid w1]|]; [|cbn; congruence].
  destruct (f_ins_items f) eqn:Hi; [cbn; congruence|].
  destruct (insert_items _ _) as [w2|]; [|cbn; congruence].
  destruct (f_commit f) eqn:Hc; [cbn; congruence|].
  destruct Hf as [Hf|[Hf|Hf]]; discriminate.
Qed.

Lemma order_tx_failure (d : db N) f uid num tot pm lines note log :
  f_ins_order f = true \/ f_ins_items f = true \/ f_commit f = true \/
  status (out_resp (order_tx d f uid num tot pm lines note log)) <> 201 ->
  tx_failed d (order_tx d f uid num tot pm lines note log).
Proof.
  intros [Hf|[Hf|[Hf|Hs]]]; apply order_tx_not_success; try assumption;
  apply order_tx_step_fault; tauto.
Qed.

(** ** C1 *)

(** C1: for an order submission that passes validation (Main) and for any
    submission of Alt, a failure of the header insert, of the line-items
    insert or of the commit (indeed any non-success outcome) leaves no
    order row and no line-item row committed, no transaction open on the
    pooled connection, and answers a 500 with an error body. *)
Theorem create_order_failure_rolls_back :
  (forall (d : db N) f now uid req pm lines,
     validate_main now req = inr (pm, lines) ->
     f_ins_order f = true \/ f_ins_items f = true \/ f_commit f = true \/
     status (out_resp (create_order_main d f now uid req)) <> 201 ->
     tx_failed d (create_order_main d f now uid req)) /\
  (forall (d : db N) f now uid pm lines,
     f_ins_order f = true \/ f_ins_items f = true \/ f_commit f = true \/
     status (out_resp (create_order_alt d f now uid pm lines)) <> 201 ->
     tx_failed d (create_order_alt d f now uid pm lines)).
Proof.
  split.
  - intros d f now uid req pm lines Hv. unfold create_order_main. rewrite Hv.
    apply order_tx_failure.
  - intros d f now uid pm lines. unfold create_order_alt.
    apply order_tx_failure.
Qed.

(** ** C2 *)

Lemma server_total_is_sum_of_subtotals (oid : Z) (lines : list (Z * Z * N)) :
  server_total lines = sum_subtotals (order_items_data oid lines).
Proof.
  unfold server_total, sum_subtotals, order_items_data.
  generalize (@jzero N _). induction lines as [|[[i q] p] l IH]; intros acc.
  - reflexivity.
  - cbn. apply IH.
Qed.

Lemma stored_items_of_order (oid : Z) (lines : list (Z * Z * N)) :
  filter (fun ir => Z.eqb (ir_order ir) oid) (map stored_item (order_items_data oid lines))
  = map (fun '(i, q, p) => mk_item_row oid i q (dec2 p) (dec2 (jmul p (jofZ q)))) lines.
Proof.
  induction lines as [|[[i q] p] l IH]; cbn; [reflexivity|].
  rewrite Z.eqb_refl. f_equal. exact IH.
Qed.

Lemma stored_items_exact (oid : Z) (lines : list (Z * Z * N)) :
  Forall (fun '(_, q, p) => dec2 p = p /\ dec2 (jmul p (jofZ q)) = jmul p (jofZ q)) lines ->
  map (fun '(i, q, p) => mk_item_row oid i q (dec2 p) (dec2 (jmul p (jofZ q)))) lines
  = order_items_data oid lines.
Proof.
  induction 1 as [|[[i q] p] l [E1 E2] _ IH]; cbn; [reflexivity|].
  rewrite E1, E2, IH. reflexivity.
Qed.

Lemma order_items_data_subtotals (oid : Z) (lines : list (Z * Z * N)) :
  Forall (fun ir => ir_subtotal ir = jmul (ir_price ir) (jofZ (ir_qty ir)))
         (order_items_data oid lines).
Proof.
  induction lines as [|[[i q] p] l IH]; cbn; constructor; auto.
Qed.

Lemma filter_below (n : Z) (l : list (item_row N)) :
  Forall (fun ir => ir_order ir < n) l ->
  filter (fun ir => Z.eqb (ir_order ir) n) l = [].
Proof.
  induction 1 as [|ir l Hlt _ IH]; cbn; [reflexivity|].
  destruct (Z.eqb_spec (ir_order ir) n); [lia|exact IH].
Qed.

Lemma find_below (n : Z) (l : list (order_row N)) :
  Forall (fun o => or_id o < n) l ->
  find (fun o => Z.eqb (or_id o) n) l = None.
Proof.
  induction 1 as [|o l Hlt _ IH]; cbn; [reflexivity|].
  destruct (Z.eqb_spec (or_id o) n); [lia|exact IH].
Qed.

Lemma find_app_none {A : Type} (p : A -> bool) (l1 l2 : list A) :
  find p l1 = None -> find p (l1 ++ l2) = find p l2.
Proof.
  induction l1 as [|x l1 IH]; cbn; [reflexivity|].
  destruct (p x); [discriminate|exact IH].
Qed.

(** The committed branch of the transaction, written out. *)
Lemma order_tx_success (d : db N) f uid num tot pm lines note log :
  status (out_resp (order_tx d f uid num tot pm lines note log)) = 201 ->
  let oid := next_order_id d in
  out_db (order_tx d f uid num tot pm lines note log) =
    mk_db (menu_ids d) (next_item_id d)
      (orders d ++ [stored_order (order_header uid num tot pm oid)])
      (order_items d ++ map stored_item (order_items_data oid lines)) (oid + 1) /\
  out_open_tx (order_tx d f uid num tot pm lines note log) = false /\
  rbody (out_resp (order_tx d f uid num tot pm lines note log)) = BPlaced oid num tot /\
  out_trace (order_tx d f uid num tot pm lines note log) =
    notify (f_emit f) [(RAdmins, "order:new"%string, note oid)] log /\
  forallb (fun ir => existsb (Z.eqb (ir_item ir)) (menu_ids d))
          (order_items_data oid lines) = true.
Proof.
  unfold order_tx.
  destruct (f_conn f); [cbn; congruence|].
  destruct (f_begin f); [cbn; congruence|].
  destruct (f_ins_order f); [cbn; congruence|].
  simpl.
  destruct (insert_order d (order_header uid num tot pm)) as [[oid w1]|] eqn:Ei;
    [|cbn; congruence].
  unfold insert_order in Ei.
  destruct (existsb _ (orders d)); [discriminate|].
  injection Ei as <- <-.
  destruct (f_ins_items f); [cbn; congruence|].
  unfold insert_items. cbn [menu_ids].
  destruct (forallb _ _) eqn:Hfk; [|cbn; congruence].
  destruct (f_commit f); [cbn; congruence|].
  intros _. cbn. repeat split.
Qed.

(** C2 (amended): for every successful (201) order creation on Main over
    a store whose ids are below the AUTO_INCREMENT counter, the total is
    computed on the server from the validated (item id, quantity, price)
    tuples and the 201 body reports it; the new header stores that total
    as its DECIMAL(10,2) column keeps it, and the order's line items are
    exactly the submitted tuples, each storing the rounded price and the
    rounded [price * quantity].  When rounding changes none of these
    amounts, the stored total is the sum of the stored subtotals and each
    subtotal is [price * quantity].  A [total] key sent by the client
    changes nothing in the outcome. *)
Theorem create_order_total_consistent :
  (forall (d : db N) f now uid req,
     ids_fresh d ->
     let o := create_order_main d f now uid req in
     status (out_resp o) = 201 ->
     exists pm lines oid,
       validate_main now req = inr (pm, lines) /\
       rbody (out_resp o) = BPlaced oid now (server_total lines) /\
       (exists r, find (fun r => Z.eqb (or_id r) oid) (orders (out_db o)) = Some r /\
                  or_total r = dec2 (server_total lines)) /\
       items_of_order oid (out_db o) =
         map (fun '(i, q, p) => mk_item_row oid i q (dec2 p) (dec2 (jmul p (jofZ q))))
             lines /\
       (dec2 (server_total lines) = server_total lines ->
        Forall (fun '(_, q, p) => dec2 p = p /\ dec2 (jmul p (jofZ q)) = jmul p (jofZ q))
               lines ->
        dec2 (server_total lines) = sum_subtotals (items_of_order oid (out_db o)) /\
        Forall (fun ir => ir_subtotal ir = jmul (ir_price ir) (jofZ (ir_qty ir)))
               (items_of_order oid (out_db o)))) /\
  (forall (d : db N) f now uid req t,
     create_order_main d f now uid (with_client_total req t) =
     create_order_main d f now uid req).
Proof.
  split.
  - intros d f now uid req [Ho Hi] o Hs. subst o.
    unfold create_order_main in *.
    destruct (validate_main now req) as [m|[pm lines]] eqn:Hv; [cbn in Hs; discriminate|].
    destruct (order_tx_success d f uid now (server_total lines) pm lines
                (fun oid => PNewOrder oid now (server_total lines) uid)
                (Some "[SOCKET] Failed to emit order:new"%string) Hs)
      as [Hdb [_ [Hb _]]].
    exists pm, lines, (next_order_id d).
    unfold items_of_order. rewrite Hdb, Hb. cbn [orders order_items].
    rewrite filter_app, (filter_below _ _ Hi), stored_items_of_order. cbn [app].
    split; [reflexivity|]. split; [reflexivity|].
    split.
    { exists (stored_order (order_header uid now (server_total lines) pm (next_order_id d))).
      rewrite (find_app_none _ _ _ (find_below _ _ Ho)). cbn. rewrite Z.eqb_refl.
      split; reflexivity. }
    split; [reflexivity|].
    intros Ht Hl. rewrite (stored_items_exact _ _ Hl), Ht.
    split; [apply server_total_is_sum_of_subtotals|apply order_items_data_subtotals].
  - intros d f now uid req t. destruct req. reflexivity.
Qed.

(** ** C6 *)

Lemma emits_of_notify_one fe r ev (p : payload N) log :
  emits_of (notify fe [(r, ev, p)] log) = [(r, ev, p)].
Proof.
  unfold notify; cbn. destruct (fe r), log; cbn; reflexivity.
Qed.

(** C6: on both servers, a successful order creation attempts exactly one
    socket emit, the [order:new] event to the [admins] room (staff
    channel); nothing is emitted to [customers] or to a [user:<id>]
    room. *)
Theorem order_new_to_staff_only :
  (forall (d : db N) f now uid req,
     status (out_resp (create_order_main d f now uid req)) = 201 ->
     exists p, emits_of (out_trace (create_order_main d f now uid req))
               = [(RAdmins, "order:new"%string, p)]) /\
  (forall (d : db N) f now uid pm lines,
     status (out_resp (create_order_alt d f now uid pm lines)) = 201 ->
     exists p, emits_of (out_trace (create_order_alt d f now uid pm lines))
               = [(RAdmins, "order:new"%string, p)]).
Proof.
  split.
  - intros d f now uid req. unfold create_order_main.
    destruct (validate_main now req) as [m|[pm lines]]; [cbn; discriminate|].
    intros Hs. destruct (order_tx_success _ _ _ _ _ _ _ _ _ Hs) as [_ [_ [_ [Ht _]]]].
    rewrite Ht, emits_of_notify_one. eexists; reflexivity.
  - intros d f now uid pm lines Hs. unfold create_order_alt in *.
    destruct (order_tx_success _ _ _ _ _ _ _ _ _ Hs) as [_ [_ [_ [Ht _]]]].
    rewrite Ht, emits_of_notify_one. eexists; reflexivity.
Qed.

(** ** C8 *)

(** What the client and the store see of a request. *)
Definition visible (o : outcome N) : db N * bool * response N :=
  (out_db o, out_open_tx o, out_resp o).

Lemma order_tx_emit_independent (d : db N) f e uid num tot pm lines note log :
  visible (order_tx d (with_emit f e) uid num tot pm lines note log) =
  visible (order_tx d f uid num tot pm lines note log).
Proof.
  unfold order_tx, with_emit; cbn [f_conn f_begin f_ins_order f_ins_items f_commit f_emit].
  repeat match goal with
         | |- context [match ?x with _ => _ end] => destruct x
         end; reflexivity.
Qed.

Lemma notify_throw_logs fe (es : list (room * string * payload N)) m :
  snd (try_emits fe es) = true -> In (Log m) (notify fe es (Some m)).
Proof.
  unfold notify. destruct (try_emits fe es) as [tr threw]. cbn. intros ->.
  apply in_or_app. right. left. reflexivity.
Qed.

Lemma try_emits_only_emits fe (es : list (room * string * payload N)) x :
  In x (fst (try_emits fe es)) -> exists r ev p, x = Emit r ev p.
Proof.
  induction es as [|[[r ev] p] es IH]; cbn; [tauto|].
  destruct (fe r); cbn.
  - intros [<-|[]]. eauto.
  - destruct (try_emits fe es) as [tr threw]. cbn in *.
    intros [<-|Hx]; [eauto|exact (IH Hx)].
Qed.

(** [catch (_e) {}] leaves no log line. *)
Lemma notify_silent fe (es : list (room * string * payload N)) m :
  ~ In (Log m) (notify fe es None).
Proof.
  unfold notify. pose proof (try_emits_only_emits fe es (Log m)) as Hx.
  destruct (try_emits fe es) as [tr threw]. cbn in *. rewrite app_nil_r.
  intros Hin. destruct (Hx Hin) as [r [ev [p E]]]. discriminate.
Qed.

Lemma gnotify_throw_logs {P : Type} fe (es : list (room * string * P)) m :
  snd (Publish.gtry_emits fe es) = true ->
  In (Publish.GLog m) (Publish.gnotify fe es (Some m)).
Proof.
  unfold Publish.gnotify. destruct (Publish.gtry_emits fe es) as [tr threw]. cbn.
  intros ->. apply in_or_app. right. left. reflexivity.
Qed.

Lemma gtry_emits_only_emits {P : Type} fe (es : list (room * string * P)) x :
  In x (fst (Publish.gtry_emits fe es)) -> exists r ev p, x = Publish.GEmit r ev p.
Proof.
  induction es as [|[[r ev] p] es IH]; cbn; [tauto|].
  destruct (fe r); cbn.
  - intros [<-|[]]. eauto.
  - destruct (Publish.gtry_emits fe es) as [tr threw]. cbn in *.
    intros [<-|Hx]; [eauto|exact (IH Hx)].
Qed.

Lemma gnotify_silent {P : Type} fe (es : list (room * string * P)) m :
  ~ In (Publish.GLog m) (Publish.gnotify fe es None).
Proof.
  unfold Publish.gnotify. pose proof (gtry_emits_only_emits fe es (Publish.GLog m)) as Hx.
  destruct (Publish.gtry_emits fe es) as [tr threw]. cbn in *. rewrite app_nil_r.
  intros Hin. destruct (Hx Hin) as [r [ev [p E]]]. discriminate.
Qed.

(** Case analysis on every test of a handler. *)
Ltac split_branches :=
  repeat match goal with
         | |- context [if ?b then _ else _] => destruct b
         | |- context [match ?x with Some _ => _ | None => _ end] => destruct x
         | |- context [match ?x with _ => _ end] => destruct x
         end.

(** Whether an emit throws is read nowhere but in the trace. *)
Ltac emit_blind :=
  intros; cbv [Publish.rvisible Publish.pf_with_emit visible with_emit];
  repeat match goal with
         | |- context [Publish.pf_write (Publish.mk_pub_faults ?a _ _)] =>
             change (Publish.pf_write (Publish.mk_pub_faults a _ _)) with a
         | |- context [Publish.pf_fetch (Publish.mk_pub_faults _ ?a _)] =>
             change (Publish.pf_fetch (Publish.mk_pub_faults _ a _)) with a
         end;
  split_branches; reflexivity.


(** ** C10, C3, C7: the status route of Alt *)

Import StatusUpdate.

Lemma keep_valid_idem (a : list string) (v : option string) :
  keep_valid a (keep_valid a v) = keep_valid a v.
Proof.
  destruct v as [x|]; cbn; [|reflexivity].
  destruct (set_has a x) eqn:E; cbn; [rewrite E|]; reflexivity.
Qed.

(** C10: in the status route, a supplied status or payment status outside
    its set is dropped as if it had not been supplied; the request fails
    with the 400 validation error exactly when no supplied field survives,
    and then nothing is written and nothing is emitted. *)
Theorem invalid_status_fields_dropped :
  (forall (d : db N) f orderId st ps,
     update_status d f orderId st ps =
     update_status d f orderId (keep_valid allowedStatus st)
                               (keep_valid allowedPayment ps)) /\
  (forall (d : db N) f orderId st ps,
     status (out_resp (update_status d f orderId st ps)) = 400 <->
     keep_valid allowedStatus st = None /\ keep_valid allowedPayment ps = None) /\
  (forall (d : db N) f orderId st ps,
     status (out_resp (update_status d f orderId st ps)) = 400 ->
     out_db (update_status d f orderId st ps) = d /\
     out_trace (update_status d f orderId st ps) = []).
Proof.
  split; [|split].
  - intros d f orderId st ps. unfold update_status.
    rewrite !keep_valid_idem. reflexivity.
  - intros d f orderId st ps. unfold update_status.
    destruct (keep_valid allowedStatus st) as [s|], (keep_valid allowedPayment ps) as [p|];
    cbv zeta; [| | |cbn; tauto];
    (split; [intros Hx|intros [Hx1 Hx2]; discriminate]);
    repeat match type of Hx with
           | context [if ?b then _ else _] => destruct b
           | context [match ?x with Some _ => _ | None => _ end] => destruct x
           end; cbn in Hx; discriminate.
  - intros d f orderId st ps. unfold update_status.
    destruct (keep_valid allowedStatus st) as [s|], (keep_valid allowedPayment ps) as [p|];
    cbv zeta;
    repeat match goal with
           | |- context [if ?b then _ else _] => destruct b
           | |- context [match ?x with Some _ => _ | None => _ end] => destruct x
           end; cbn; intros Hx; try discriminate; split; reflexivity.
Qed.

Lemma find_update (orderId : Z) (s p : option string) (l : list (order_row N)) :
  find (is_order orderId)
       (map (fun o => if is_order orderId o then apply_update s p o else o) l) =
  option_map (apply_update s p) (find (is_order orderId) l).
Proof.
  induction l as [|o l IH]; cbn; [reflexivity|].
  destruct (is_order orderId o) eqn:E; cbn.
  - unfold is_order in *. cbn. rewrite E. reflexivity.
  - rewrite E. exact IH.
Qed.

(** C3 (amended): the status route enforces no transition graph: for an
    existing order, any status of the enumerated set is accepted and
    persisted whatever the order's current status is (a [completed]
    order can be set back to [pending]); only the value's membership in
    its set is checked. *)
Theorem status_update_ignores_current_status :
  forall (d : db N) f orderId (o0 : order_row N) s ps,
    find (is_order orderId) (orders d) = Some o0 ->
    set_has allowedStatus s = true ->
    f_update f = false ->
    status (out_resp (update_status d f orderId (Some s) ps)) = 200 /\
    find (is_order orderId) (orders (out_db (update_status d f orderId (Some s) ps)))
    = Some (apply_update (Some s) (keep_valid allowedPayment ps) o0) /\
    or_status (apply_update (Some s) (keep_valid allowedPayment ps) o0) = s.
Proof.
  intros d f orderId o0 s ps Hf Hs Hu.
  assert (Hex : existsb (is_order orderId) (orders d) = true).
  { apply existsb_exists. exists o0. split; [apply find_some in Hf; tauto|].
    apply find_some in Hf. tauto. }
  unfold update_status. cbn [keep_valid]. rewrite Hs. cbv zeta.
  destruct (keep_valid allowedPayment ps) as [p|]; rewrite Hu, Hex; cbn [negb];
  destruct (f_fetch f); cbn [out_resp out_db status orders];
  rewrite ?find_update, ?Hf; cbn; repeat split.
  all: rewrite find_update, Hf; reflexivity.
Qed.

(** C7 (amended): on Alt, when the status route answers with the
    refreshed order [r] (the update matched a row and the read-back
    succeeded), [r] is the stored order with the kept fields applied and
    is what is now persisted; an [order:update] carrying [r] is emitted to
    [admins] and then, unless that first emit throws, to
    [user:<owner of r>]; and [handleOrderUpdate r] sets the status and
    payment status of every cached copy of the order to those of [r].
    When the answer is instead a plain message, the read-back failed: the
    order existed, the update is persisted (only the order's kept fields
    change, nothing else in the store), the route answers
    200 "Order updated", and nothing is emitted. *)
Theorem order_update_reaches_owner :
  (forall (d : db N) f orderId st ps r,
     let o := update_status d f orderId st ps in
     rbody (out_resp o) = BOrderUpdated r ->
     (exists o0, find (is_order orderId) (orders d) = Some o0 /\
       r = apply_update (keep_valid allowedStatus st) (keep_valid allowedPayment ps) o0) /\
     find (is_order orderId) (orders (out_db o)) = Some r /\
     emits_of (out_trace o) =
       (if f_emit f RAdmins
        then [(RAdmins, "order:update"%string, POrder r)]
        else [(RAdmins, "order:update"%string, POrder r);
              (RUser (or_user r), "order:update"%string, POrder r)]) /\
     (forall cache e, In e (Reconciler.handleOrderUpdate r cache) ->
        Reconciler.co_order_id e = orderId ->
        Reconciler.co_status e = or_status r /\
        Reconciler.co_payment_status e = or_payment_status r)) /\
  (forall (d : db N) f orderId st ps m,
     let o := update_status d f orderId st ps in
     rbody (out_resp o) = BMessage m ->
     status (out_resp o) = 200 /\ m = "Order updated"%string /\
     (exists o0, find (is_order orderId) (orders d) = Some o0) /\
     orders (out_db o) =
       map (fun o1 => if is_order orderId o1
                      then apply_update (keep_valid allowedStatus st)
                             (keep_valid allowedPayment ps) o1
                      else o1) (orders d) /\
     menu_ids (out_db o) = menu_ids d /\ order_items (out_db o) = order_items d /\
     out_open_tx o = false /\
     out_trace o = []).
Proof.
  split.
  - intros d f orderId st ps r o Hb. subst o.
    unfold update_status in *. cbv zeta in *.
    set (s := keep_valid allowedStatus st) in *.
    set (p := keep_valid allowedPayment ps) in *.
    assert (Hmain : forall r0,
      find (is_order orderId)
        (map (fun o => if is_order orderId o then apply_update s p o else o)
             (orders d)) = Some r0 ->
      (exists o0, find (is_order orderId) (orders d) = Some o0 /\ r0 = apply_update s p o0)).
    { intros r0 Hfd. rewrite find_update in Hfd.
      destruct (find (is_order orderId) (orders d)) as [o0|]; cbn in Hfd; [|discriminate].
      injection Hfd as <-. eauto. }
    destruct s as [sv|], p as [pv|]; [| | |cbn in Hb; discriminate].
    all: destruct (f_update f) eqn:Hu; [cbn in Hb; discriminate|].
    all: destruct (existsb (is_order orderId) (orders d)) eqn:Hex; cbn [negb] in *;
           [|cbn in Hb; discriminate].
    all: destruct (f_fetch f) eqn:Hfe; [cbn in Hb; discriminate|].
    all: destruct (find (is_order orderId) _) as [r'|] eqn:Hfd; cbn in Hb;
           [|discriminate].
    all: injection Hb as <-.
    all: split; [apply Hmain; reflexivity|].
    all: split; [exact Hfd|].
    all: split; [unfold notify; cbn;
                 destruct (f_emit f RAdmins), (f_emit f (RUser (or_user r')));
                 reflexivity|].
    all: apply find_some in Hfd; destruct Hfd as [_ Hid]; unfold is_order in Hid;
         apply Z.eqb_eq in Hid.
    all: intros cache e Hin He; unfold Reconciler.handleOrderUpdate in Hin;
         apply in_map_iff in Hin; destruct Hin as [e0 [<- _]].
    all: destruct (Z.eqb_spec (Reconciler.co_order_id e0) (or_id r')) as [E|E];
         cbn in *; [split; reflexivity|congruence].
  - intros d f orderId st ps m o Hb. subst o.
    assert (Hfd : existsb (is_order orderId) (orders d) = true ->
                  exists o0, find (is_order orderId) (orders d) = Some o0).
    { intros Hex. destruct (find (is_order orderId) (orders d)) as [o0|] eqn:Hf; [eauto|].
      apply existsb_exists in Hex as [x [Hx Hix]].
      rewrite (find_none _ _ Hf x Hx) in Hix. discriminate. }
    unfold update_status in *. cbv zeta in *.
    destruct (keep_valid allowedStatus st) as [s|], (keep_valid allowedPayment ps) as [p|];
      [| | |cbn in Hb; discriminate].
    all: destruct (f_update f); [cbn in Hb; discriminate|].
    all: destruct (existsb (is_order orderId) (orders d)) eqn:Hex; cbn [negb] in *;
           [|cbn in Hb; discriminate].
    all: specialize (Hfd eq_refl).
    all: destruct (f_fetch f);
           [|destruct (find (is_order orderId) _); [cbn in Hb; discriminate|]].
    all: cbn in Hb |- *; injection Hb as <-; repeat split; assumption.
Qed.

End Props.

(** ** C5 *)

Import Sockets.

(** C5 (amended): on Main, a connection is accepted only with a verified
    token carrying a non-zero [userId], a non-empty [username] and a
    non-empty [role]; it then
    joins exactly the [admins] room when the role is [admin], the
    [customers] room for any other role ([staff] included), and
    [user:<userId>].  On Alt, a connection whose token verifies joins
    [admins] when the role is [admin] or [staff], [customers] otherwise,
    and [user:<userId>] when the payload has a non-zero [userId]. *)
Theorem connection_rooms :
  (forall t rooms,
     connect_main t = Some rooms ->
     exists c uid,
       t = TokValid c /\ cl_userId c = Some uid /\ uid <> 0 /\
       truthy_str (cl_username c) = true /\ truthy_str (cl_role c) = true /\
       (forall r, In r rooms <->
          (r = RAdmins /\ role_is c "admin" = true) \/
          (r = RCustomers /\ role_is c "admin" = false) \/
          r = RUser uid)) /\
  (forall c r,
     In r (connect_alt (TokValid c)) <->
       (r = RAdmins /\ (role_is c "admin" || role_is c "staff") = true) \/
       (r = RCustomers /\ (role_is c "admin" || role_is c "staff") = false) \/
       (exists uid, r = RUser uid /\ cl_userId c = Some uid /\ uid <> 0)).
Proof.
  split.
  - intros t rooms Ht. unfold connect_main, auth_main in Ht.
    destruct t as [| |c]; try discriminate.
    destruct (truthy_id (cl_userId c)) eqn:Hu; cbn in Ht; [|discriminate].
    destruct (truthy_str (cl_username c)) eqn:Hn; cbn in Ht; [|discriminate].
    destruct (truthy_str (cl_role c)) eqn:Hro; cbn in Ht; [|discriminate].
    injection Ht as <-.
    destruct (cl_userId c) as [uid|] eqn:Hid; cbn in Hu; [|discriminate].
    exists c, uid. split; [reflexivity|]. split; [exact Hid|].
    split; [apply Z.eqb_neq; destruct (uid =? 0); [discriminate|reflexivity]|].
    split; [exact Hn|]. split; [exact Hro|].
    intros r. unfold joins_main. rewrite Hid.
    destruct (role_is c "admin"); cbn; split.
    + intros [<-|[<-|[]]]; auto.
    + intros [[-> _] | [[-> ?]| ->]]; auto; discriminate.
    + intros [<-|[<-|[]]]; auto.
    + intros [[-> ?] | [[-> _]| ->]]; auto; discriminate.
  - intros c r. unfold connect_alt, joins_alt, auth_alt.
    destruct (role_is c "admin" || role_is c "staff");
    destruct (cl_userId c) as [z|]; cbn;
    try (destruct (Z.eqb_spec z 0) as [Ez|Ez]; cbn); split.
    all: intros Hr; decompose [or and ex] Hr; clear Hr; subst;
         try contradiction; try congruence.
    all: first
      [ left; split; reflexivity
      | right; left; split; reflexivity
      | right; right; eexists; split; [reflexivity|split; [reflexivity|assumption]]
      | left; reflexivity
      | right; left; reflexivity
      | right; left; congruence ].
Qed.

(** ** C9 *)

Import Reconciler.

Lemma filter_twice {A : Type} (g : A -> bool) (l : list A) :
  filter g (filter g l) = filter g l.
Proof.
  induction l as [|x l IH]; cbn; [reflexivity|].
  destruct (g x) eqn:E; cbn; [rewrite E, IH|]; [reflexivity|exact IH].
Qed.

Lemma filter_keep_all {A : Type} (g : A -> bool) (l : list A) :
  (forall x, In x l -> g x = true) -> filter g l = l.
Proof.
  induction l as [|x l IH]; intros Hall; cbn; [reflexivity|].
  rewrite (Hall x (or_introl eq_refl)), IH; [reflexivity|].
  intros y Hy. apply Hall. right. exact Hy.
Qed.

Lemma strict_neq_absent (item_id : option Z) (it : menu_item) :
  Some (mi_item_id it) <> item_id -> strict_neq (mi_item_id it) item_id = true.
Proof.
  destruct item_id as [z|]; cbn; [|reflexivity].
  intros Hne. destruct (Z.eqb_spec (mi_item_id it) z); [congruence|reflexivity].
Qed.

(** C9: for the [menu:item:delete] handlers of [Menu.js] and of
    [AdminDashboard.js], applying a deletion twice gives the same cache as
    applying it once, and a deletion of an id that no cached item carries
    leaves the cache unchanged. *)
Theorem menu_delete_idempotent :
  (forall item_id cache,
     handleMenuItemDelete item_id (handleMenuItemDelete item_id cache) =
     handleMenuItemDelete item_id cache) /\
  (forall item_id cache,
     (forall it, In it cache -> Some (mi_item_id it) <> item_id) ->
     handleMenuItemDelete item_id cache = cache) /\
  (forall item_id cache,
     adminMenuItemDelete item_id (adminMenuItemDelete item_id cache) =
     adminMenuItemDelete item_id cache) /\
  (forall item_id cache,
     (forall it, In it cache -> Some (mi_item_id it) <> item_id) ->
     adminMenuItemDelete item_id cache = cache).
Proof.
  split; [|split; [|split]].
  - intros [z|] cache; cbn; [|reflexivity].
    destruct (Z.eqb z 0); [reflexivity|]. apply filter_twice.
  - intros [z|] cache Habs; cbn; [|reflexivity].
    destruct (Z.eqb z 0); [reflexivity|].
    apply filter_keep_all. intros it Hin.
    apply (strict_neq_absent (Some z) it), Habs, Hin.
  - intros item_id cache. apply filter_twice.
  - intros item_id cache Habs. apply filter_keep_all.
    intros it Hin. apply strict_neq_absent, Habs, Hin.
Qed.

(* ================================================================== *)
(** * Counterexamples *)

Import Samples OrderCreate StatusUpdate.

(** C3 as stated fails: an order already [completed] is set back to
    [pending] by the status route, which answers 200 and persists the new
    status. *)
Lemma completed_order_set_back_to_pending :
  status (out_resp (update_status store_done no_faults 1 (Some "pending"%string) None))
    = 200 /\
  option_map or_status
    (find (is_order 1)
       (orders (out_db (update_status store_done no_faults 1 (Some "pending"%string) None))))
    = Some "pending"%string.
Proof. split; reflexivity. Qed.

(** C4: the item loop of Main checks only [Number.isInteger(item.item_id)]
    (while its sibling check requires [quantity >= 1]), so item id [0]
    (or [-3]) passes validation.  With item [7] the only menu item, the
    request then ends in the foreign-key refusal of the line items: the
    transaction is rolled back, nothing is committed, and the caller gets
    500 "Failed to add order items", not a validation error. *)
Lemma zero_item_id_not_a_validation_error :
  validate_main 1000 (one_item_req 0) = inr ("cash"%string, [(0, 2, 500)]) /\
  validate_main 1000 (one_item_req (-3)) = inr ("cash"%string, [(-3, 2, 500)]) /\
  rbody (out_resp (create_order_main store7 no_faults 1000 42 (one_item_req 0)))
    = BError "Failed to add order items"%string /\
  tx_failed store7 (create_order_main store7 no_faults 1000 42 (one_item_req 0)) /\
  tx_failed store7 (create_order_main store7 no_faults 1000 42 (one_item_req (-3))).
Proof.
  split; [reflexivity|]. split; [reflexivity|]. split; [reflexivity|].
  split; unfold tx_failed; repeat split; try reflexivity; eexists; reflexivity.
Qed.

Module RoundingExample.
Import DecimalSamples.

(** C2 as stated fails once the DECIMAL(10,2) columns round: two lines
    at price 0.125, quantity 1, are accepted (201), the header stores the
    total 0.25, and each line stores the subtotal 0.13, whose sum is 0.26;
    a line at price 0.125, quantity 3 stores the unit price 0.13 and the
    subtotal 0.38, not 3 * 0.13. *)
Lemma rounded_total_differs_from_subtotals :
  status (out_resp (create_order_main qstore no_faults 1000 42
                      two_eighths_req)) = 201 /\
  option_map or_total
    (find (fun r => Z.eqb (or_id r) 1)
       (orders (out_db (create_order_main qstore no_faults 1000 42
                          two_eighths_req))))
    = Some (QArith_base.Qmake 25 100) /\
  map ir_subtotal
    (items_of_order 1 (out_db (create_order_main qstore no_faults 1000 42
                                 two_eighths_req)))
    = [QArith_base.Qmake 13 100; QArith_base.Qmake 13 100] /\
  QArith_base.Qeq_bool
    (sum_subtotals
       (items_of_order 1 (out_db (create_order_main qstore no_faults 1000 42
                                    two_eighths_req))))
    (QArith_base.Qmake 25 100) = false /\
  status (out_resp (create_order_main qstore no_faults 1000 42
                      three_eighths_req)) = 201 /\
  map (fun ir => (ir_qty ir, ir_price ir, ir_subtotal ir))
    (items_of_order 1 (out_db (create_order_main qstore no_faults 1000 42
                                 three_eighths_req)))
    = [(3, QArith_base.Qmake 13 100, QArith_base.Qmake 38 100)] /\
  QArith_base.Qeq_bool (QArith_base.Qmult (QArith_base.Qmake 13 100) (QArith_base.inject_Z 3)) (QArith_base.Qmake 38 100) = false.
Proof. repeat split; vm_compute; reflexivity. Qed.

End RoundingExample.

(** C5 as stated fails on Main: a [staff] connection joins [customers]
    and not [admins]. *)
Lemma staff_connection_joins_customers :
  connect_main (TokValid staff_claims) = Some [RCustomers; RUser 5].
Proof. reflexivity. Qed.

(** C7 as stated fails: when the read-back after the UPDATE fails, the
    update is persisted and reported as done, and no [order:update] is
    emitted. *)
Lemma status_update_without_notification :
  status (out_resp (update_status store_pending fetch_fails 1
                      (Some "confirmed"%string) None)) = 200 /\
  option_map or_status
    (find (is_order 1)
       (orders (out_db (update_status store_pending fetch_fails 1
                          (Some "confirmed"%string) None))))
    = Some "confirmed"%string /\
  emits_of (out_trace (update_status store_pending fetch_fails 1
                         (Some "confirmed"%string) None)) = [].
Proof. split; [|split]; reflexivity. Qed.


(* ================================================================== *)
(** * Witnesses: the theorems at concrete inputs *)

Lemma create_order_failure_rolls_back_witness :
  validate_main 1000 (one_item_req 7) = inr ("cash"%string, [(7, 2, 500)]) /\
  tx_failed store7 (create_order_main store7 commit_fails 1000 42 (one_item_req 7)).
Proof.
  split; [reflexivity|].
  apply (proj1 create_order_failure_rolls_back) with
    (pm := "cash"%string) (lines := [(7, 2, 500)]); [reflexivity|].
  right; right; left; reflexivity.
Defined.

Lemma create_order_total_consistent_witness :
  ids_fresh store7 /\
  status (out_resp (create_order_main store7 no_faults 1000 42 (one_item_req 7))) = 201 /\
  exists pm lines oid,
    validate_main 1000 (one_item_req 7) = inr (pm, lines) /\
    dec2 (server_total lines) =
      sum_subtotals (items_of_order oid
                       (out_db (create_order_main store7 no_faults 1000 42 (one_item_req 7)))).
Proof.
  assert (Hf : ids_fresh store7) by (split; constructor).
  assert (Hs : status (out_resp (create_order_main store7 no_faults 1000 42
                                   (one_item_req 7))) = 201) by reflexivity.
  split; [exact Hf|]. split; [exact Hs|].
  destruct (proj1 create_order_total_consistent store7 no_faults 1000 42 (one_item_req 7) Hf Hs)
    as [pm [lines [oid [Hv [_ [_ [_ Hx]]]]]]].
  exists pm, lines, oid. split; [exact Hv|].
  assert (Hl : lines = [(7, 2, 500)]) by (cbn in Hv; congruence). subst lines.
  apply Hx; [reflexivity|repeat constructor].
Defined.

Lemma status_update_ignores_current_status_witness :
  find (is_order 1) (orders store_done) =
    Some (mk_order_row 1 42 1000 1000 "cash" "completed" "paid") /\
  set_has allowedStatus "pending" = true /\
  f_update no_faults = false /\
  status (out_resp (update_status store_done no_faults 1 (Some "pending"%string) None)) = 200.
Proof.
  split; [reflexivity|]. split; [reflexivity|]. split; [reflexivity|].
  apply (status_update_ignores_current_status store_done no_faults 1
           (mk_order_row 1 42 1000 1000 "cash" "completed" "paid") "pending" None);
  reflexivity.
Defined.

Lemma connection_rooms_witness :
  connect_main (TokValid admin_claims) = Some [RAdmins; RUser 1] /\
  exists c uid, TokValid admin_claims = TokValid c /\ cl_userId c = Some uid /\ uid <> 0 /\
    truthy_str (cl_username c) = true /\ truthy_str (cl_role c) = true.
Proof.
  assert (Hc : connect_main (TokValid admin_claims) = Some [RAdmins; RUser 1])
    by reflexivity.
  split; [exact Hc|].
  destruct (proj1 connection_rooms _ _ Hc) as [c [uid [E [Hu [Hz [Hn [Hr _]]]]]]].
  exists c, uid. repeat split; assumption.
Defined.

Lemma order_new_to_staff_only_witness :
  status (out_resp (create_order_main store7 no_faults 1000 42 (one_item_req 7))) = 201 /\
  exists p, emits_of (out_trace (create_order_main store7 no_faults 1000 42 (one_item_req 7)))
            = [(RAdmins, "order:new"%string, p)].
Proof.
  assert (Hs : status (out_resp (create_order_main store7 no_faults 1000 42
                                   (one_item_req 7))) = 201) by reflexivity.
  split; [exact Hs|]. exact (proj1 order_new_to_staff_only _ _ _ _ _ Hs).
Defined.

Lemma order_update_reaches_owner_witness :
  rbody (out_resp (update_status store_pending no_faults 1 (Some "confirmed"%string) None))
    = BOrderUpdated (mk_order_row 1 42 1000 1000 "cash" "confirmed" "pending") /\
  emits_of (out_trace (update_status store_pending no_faults 1 (Some "confirmed"%string) None))
    = [(RAdmins, "order:update"%string,
        POrder (mk_order_row 1 42 1000 1000 "cash" "confirmed" "pending"));
       (RUser 42, "order:update"%string,
        POrder (mk_order_row 1 42 1000 1000 "cash" "confirmed" "pending"))].
Proof.
  assert (Hb : rbody (out_resp (update_status store_pending no_faults 1
                                  (Some "confirmed"%string) None))
               = BOrderUpdated (mk_order_row 1 42 1000 1000 "cash" "confirmed" "pending"))
    by reflexivity.
  split; [exact Hb|].
  destruct (proj1 order_update_reaches_owner _ _ _ _ _ _ Hb) as [_ [_ [He _]]].
  exact He.
Defined.


Lemma menu_delete_idempotent_witness :
  handleMenuItemDelete (Some 9) [mk_menu_item 7 "Samosa" true]
    = [mk_menu_item 7 "Samosa" true] /\
  adminMenuItemDelete (Some 9) [mk_menu_item 7 "Samosa" true]
    = [mk_menu_item 7 "Samosa" true].
Proof.
  assert (Habs : forall it, In it [mk_menu_item 7 "Samosa" true] ->
                            Some (mi_item_id it) <> Some 9).
  { intros it [<-|[]]. cbn. congruence. }
  split.
  - exact (proj1 (proj2 menu_delete_idempotent) _ _ Habs).
  - exact (proj2 (proj2 (proj2 menu_delete_idempotent)) _ _ Habs).
Defined.

Lemma invalid_status_fields_dropped_witness :
  status (out_resp (update_status store_pending no_faults 1
                      (Some "shipped"%string) (Some "bogus"%string))) = 400 /\
  out_db (update_status store_pending no_faults 1
            (Some "shipped"%string) (Some "bogus"%string)) = store_pending.
Proof.
  assert (Hs : status (out_resp (update_status store_pending no_faults 1
                         (Some "shipped"%string) (Some "bogus"%string))) = 400)
    by reflexivity.
  split; [exact Hs|].
  exact (proj1 (proj2 (proj2 invalid_status_fields_dropped) _ _ _ _ _ Hs)).
Defined.

(* ================================================================== *)
(** * Further properties of the code *)

(** ** The menu cache of [Menu.js] *)

Module MenuCacheFacts.
Import MenuCache.

Lemma id_eq_refl (a : option Z) : id_eq a a = true.
Proof. destruct a; cbn; [apply Z.eqb_refl|reflexivity]. Qed.

Lemma id_eq_true (a b : option Z) : id_eq a b = true -> a = b.
Proof.
  destruct a, b; cbn; try discriminate; [|reflexivity].
  intros E. apply Z.eqb_eq in E. subst. reflexivity.
Qed.

Lemma over_twice {A : Type} (x y : option A) : over x (over x y) = over x y.
Proof. destruct x; reflexivity. Qed.

Lemma spread_twice (it u : menu_obj) : spread (spread it u) u = spread it u.
Proof. destruct it, u; unfold spread; cbn; rewrite !over_twice; reflexivity. Qed.

Lemma spread_self (a : menu_obj) : spread a a = a.
Proof. destruct a as [[]  [] [] [] []]; reflexivity. Qed.

Lemma spread_key (it u : menu_obj) :
  id_eq (mo_item_id it) (mo_item_id u) = true ->
  mo_item_id (spread it u) = mo_item_id u.
Proof.
  intros E. apply id_eq_true in E. unfold spread; cbn.
  destruct (mo_item_id u); cbn; congruence.
Qed.

Lemma spread_active (it u : menu_obj) :
  is_zero (mo_is_active it) = false -> is_zero (mo_is_active u) = false ->
  is_zero (mo_is_active (spread it u)) = false.
Proof. unfold spread; cbn. destruct (mo_is_active u); cbn; auto. Qed.

Lemma map_if_none {A : Type} (p : A -> bool) (h : A -> A) (l : list A) :
  existsb p l = false -> map (fun x => if p x then h x else x) l = l.
Proof.
  induction l as [|x l IH]; cbn; [reflexivity|].
  destruct (p x); cbn; [discriminate|]. intros E. rewrite (IH E). reflexivity.
Qed.

Lemma map_merge_keys (a : menu_obj) (l : list menu_obj) :
  map mo_item_id
    (map (fun it => if id_eq (mo_item_id it) (mo_item_id a) then spread it a else it) l)
  = map mo_item_id l.
Proof.
  induction l as [|x l IH]; cbn; [reflexivity|]. rewrite IH.
  destruct (id_eq (mo_item_id x) (mo_item_id a)) eqn:E; [|reflexivity].
  rewrite (spread_key _ _ E). apply id_eq_true in E. congruence.
Qed.

Lemma NoDup_snoc {A : Type} (l : list A) (x : A) :
  NoDup l -> ~ In x l -> NoDup (l ++ [x]).
Proof.
  induction 1 as [|y l Hy Hl IH]; cbn; intros Hx.
  - constructor; [intros []|constructor].
  - constructor.
    + rewrite in_app_iff. intros [H|[H|[]]]; [tauto|]. apply Hx. left. congruence.
    + apply IH. tauto.
Qed.

Lemma not_in_keys (a : menu_obj) (l : list menu_obj) :
  existsb (fun it => id_eq (mo_item_id it) (mo_item_id a)) l = false ->
  ~ In (mo_item_id a) (map mo_item_id l).
Proof.
  intros E Hin. apply in_map_iff in Hin as [x [Hx Hin]].
  assert (Ht : existsb (fun it => id_eq (mo_item_id it) (mo_item_id a)) l = true).
  { apply existsb_exists. exists x. split; [exact Hin|]. rewrite Hx. apply id_eq_refl. }
  congruence.
Qed.

(** X1: [handleMenuItemAdd] is idempotent: a [menu:item:add] message
    delivered twice leaves the cache as one delivery does. *)
Theorem menu_add_idempotent :
  forall (added : option menu_obj) (prev : list menu_obj),
    handleMenuItemAdd added (handleMenuItemAdd added prev) = handleMenuItemAdd added prev.
Proof.
  intros [a|] prev; cbn; [|reflexivity].
  destruct (Sockets.truthy_id (mo_item_id a)); cbn; [|reflexivity].
  destruct (is_zero (mo_is_active a)); [reflexivity|].
  destruct (existsb (fun it => id_eq (mo_item_id it) (mo_item_id a)) prev) eqn:E.
  - assert (E' : existsb (fun it => id_eq (mo_item_id it) (mo_item_id a))
                   (map (fun it => if id_eq (mo_item_id it) (mo_item_id a)
                                   then spread it a else it) prev) = true).
    { apply existsb_exists in E as [x [Hin Hx]]. apply existsb_exists.
      exists (spread x a). split.
      - apply in_map_iff. exists x. rewrite Hx. split; [reflexivity|exact Hin].
      - rewrite (spread_key _ _ Hx). apply id_eq_refl. }
    rewrite E', map_map. apply map_ext. intros x.
    destruct (id_eq (mo_item_id x) (mo_item_id a)) eqn:Hx; [|rewrite Hx; reflexivity].
    rewrite (spread_key _ _ Hx), id_eq_refl. apply spread_twice.
  - assert (E' : existsb (fun it => id_eq (mo_item_id it) (mo_item_id a)) (prev ++ [a])
                 = true).
    { rewrite existsb_app. cbn. rewrite id_eq_refl. apply orb_true_r. }
    rewrite E', map_app, (map_if_none _ _ _ E). cbn.
    rewrite id_eq_refl, spread_self. reflexivity.
Qed.

(** X2: [handleMenuItemAdd] keeps the item ids of the cache pairwise
    distinct, and after a message with a truthy id and [is_active] other
    than [0] the cache holds that id. *)
Theorem menu_add_unique_ids :
  (forall (added : option menu_obj) (prev : list menu_obj),
     NoDup (map mo_item_id prev) ->
     NoDup (map mo_item_id (handleMenuItemAdd added prev))) /\
  (forall (a : menu_obj) (prev : list menu_obj),
     Sockets.truthy_id (mo_item_id a) = true -> is_zero (mo_is_active a) = false ->
     In (mo_item_id a) (map mo_item_id (handleMenuItemAdd (Some a) prev))).
Proof.
  split.
  - intros [a|] prev Hnd; cbn; [|exact Hnd].
    destruct (Sockets.truthy_id (mo_item_id a)); cbn; [|exact Hnd].
    destruct (is_zero (mo_is_active a)); [exact Hnd|].
    destruct (existsb (fun it => id_eq (mo_item_id it) (mo_item_id a)) prev) eqn:E.
    + rewrite map_merge_keys. exact Hnd.
    + rewrite map_app. apply NoDup_snoc; [exact Hnd|]. apply not_in_keys, E.
  - intros a prev Ht Hz. cbn. rewrite Ht, Hz. cbn.
    destruct (existsb (fun it => id_eq (mo_item_id it) (mo_item_id a)) prev) eqn:E.
    + rewrite map_merge_keys. apply existsb_exists in E as [x [Hin Hx]].
      apply id_eq_true in Hx. rewrite <- Hx. apply in_map, Hin.
    + rewrite map_app. apply in_or_app. right. left. reflexivity.
Qed.

(** X3: [handleMenuItemUpdate] never adds an item: the ids after the
    message are among the ids before; a message for an id the cache does
    not hold leaves the cache unchanged; a message with [is_active: 0]
    removes every item with its id. *)
Theorem menu_update_never_adds :
  (forall (updated : option menu_obj) (prev : list menu_obj),
     incl (map mo_item_id (handleMenuItemUpdate updated prev)) (map mo_item_id prev)) /\
  (forall (u : menu_obj) (prev : list menu_obj),
     (forall it, In it prev -> mo_item_id it <> mo_item_id u) ->
     handleMenuItemUpdate (Some u) prev = prev) /\
  (forall (u : menu_obj) (prev : list menu_obj),
     Sockets.truthy_id (mo_item_id u) = true -> is_zero (mo_is_active u) = true ->
     forall it, In it (handleMenuItemUpdate (Some u) prev) ->
     mo_item_id it <> mo_item_id u).
Proof.
  split; [|split].
  - intros [u|] prev; cbn; [|apply incl_refl].
    destruct (Sockets.truthy_id (mo_item_id u)); cbn; [|apply incl_refl].
    destruct (is_zero (mo_is_active u)).
    + intros k Hk. apply in_map_iff in Hk as [x [<- Hx]].
      apply filter_In in Hx. apply in_map, Hx.
    + rewrite map_merge_keys. apply incl_refl.
  - intros u prev Habs. cbn.
    assert (Hf : forall it, In it prev -> id_eq (mo_item_id it) (mo_item_id u) = false).
    { intros it Hin. destruct (id_eq (mo_item_id it) (mo_item_id u)) eqn:E; [|reflexivity].
      apply id_eq_true in E. exfalso. exact (Habs it Hin E). }
    destruct (Sockets.truthy_id (mo_item_id u)); cbn; [|reflexivity].
    destruct (is_zero (mo_is_active u)).
    + apply filter_keep_all. intros it Hin. rewrite (Hf it Hin). reflexivity.
    + rewrite <- (map_id prev) at 2. apply map_ext_in.
      intros it Hin. rewrite (Hf it Hin). reflexivity.
  - intros u prev Ht Hz it Hin. cbn in Hin. rewrite Ht, Hz in Hin. cbn in Hin.
    apply filter_In in Hin as [_ Hk]. intros E. rewrite E, id_eq_refl in Hk.
    discriminate.
Qed.

(** X4: the cache of [Menu.js] never holds an item whose [is_active] is
    [0]: the initial load through [filterActiveItems] drops them, and the
    add, update and delete handlers keep it so. *)
Theorem menu_cache_never_holds_removed :
  (forall items, no_removed (filterActiveItems items)) /\
  (forall added c, no_removed c -> no_removed (handleMenuItemAdd added c)) /\
  (forall updated c, no_removed c -> no_removed (handleMenuItemUpdate updated c)) /\
  (forall item_id c, no_removed c -> no_removed (MenuCache.handleMenuItemDelete item_id c)).
Proof.
  split; [|split; [|split]].
  - intros items it Hin. apply filter_In in Hin as [_ Hs].
    destruct (mo_is_active it) as [[z|b|]|]; cbn in *; try reflexivity.
    apply Z.eqb_eq in Hs. subst. reflexivity.
  - intros [a|] c Hc; cbn; [|exact Hc].
    destruct (Sockets.truthy_id (mo_item_id a)); cbn; [|exact Hc].
    destruct (is_zero (mo_is_active a)) eqn:Hz; [exact Hc|].
    destruct (existsb _ c).
    + intros it Hin. apply in_map_iff in Hin as [x [<- Hx]].
      destruct (id_eq _ _); [apply spread_active; auto|auto].
    + intros it Hin. apply in_app_iff in Hin as [Hin|[<-|[]]]; auto.
  - intros [u|] c Hc; cbn; [|exact Hc].
    destruct (Sockets.truthy_id (mo_item_id u)); cbn; [|exact Hc].
    destruct (is_zero (mo_is_active u)) eqn:Hz.
    + intros it Hin. apply filter_In in Hin. apply Hc, Hin.
    + intros it Hin. apply in_map_iff in Hin as [x [<- Hx]].
      destruct (id_eq _ _); [apply spread_active; auto|auto].
  - intros item_id c Hc. unfold MenuCache.handleMenuItemDelete.
    destruct (Sockets.truthy_id item_id); [|exact Hc].
    intros it Hin. apply filter_In in Hin. apply Hc, Hin.
Qed.

End MenuCacheFacts.

(** ** The lists of [AdminDashboard.js] and of [Orders.js] *)

Module AdminCacheFacts.
Import MenuCache AdminCache MenuCacheFacts.

Section Keyed.
Context {A : Type} (key : A -> option Z).

Lemma add_if_absent_twice (n : A) (prev : list A) :
  add_if_absent key n (add_if_absent key n prev) = add_if_absent key n prev.
Proof.
  unfold add_if_absent.
  destruct (existsb (fun x => id_eq (key x) (key n)) prev) eqn:E; [rewrite E; reflexivity|].
  rewrite existsb_app. cbn. rewrite id_eq_refl, orb_true_r. reflexivity.
Qed.

Lemma add_if_absent_nodup (n : A) (prev : list A) :
  NoDup (map key prev) -> NoDup (map key (add_if_absent key n prev)).
Proof.
  intros Hnd. unfold add_if_absent.
  destruct (existsb (fun x => id_eq (key x) (key n)) prev) eqn:E; [exact Hnd|].
  rewrite map_app. apply NoDup_snoc; [exact Hnd|].
  intros Hin. apply in_map_iff in Hin as [x [Hx Hin]].
  assert (Ht : existsb (fun x => id_eq (key x) (key n)) prev = true).
  { apply existsb_exists. exists x. rewrite Hx, id_eq_refl. tauto. }
  congruence.
Qed.

Lemma add_if_absent_present (n : A) (prev : list A) :
  (exists x, In x prev /\ key x = key n) -> add_if_absent key n prev = prev.
Proof.
  intros [x [Hin Hx]]. unfold add_if_absent.
  replace (existsb (fun x => id_eq (key x) (key n)) prev) with true; [reflexivity|].
  symmetry. apply existsb_exists. exists x. rewrite Hx, id_eq_refl. tauto.
Qed.

Lemma replace_by_key_length (u : A) (prev : list A) :
  List.length (replace_by_key key u prev) = List.length prev.
Proof. apply length_map. Qed.

Lemma replace_by_key_twice (u : A) (prev : list A) :
  replace_by_key key u (replace_by_key key u prev) = replace_by_key key u prev.
Proof.
  unfold replace_by_key. rewrite map_map. apply map_ext. intros x.
  destruct (id_eq (key x) (key u)) eqn:E; [rewrite id_eq_refl|rewrite E]; reflexivity.
Qed.

Lemma replace_by_key_absent (u : A) (prev : list A) :
  (forall x, In x prev -> key x <> key u) -> replace_by_key key u prev = prev.
Proof.
  intros Habs. unfold replace_by_key. rewrite <- (map_id prev) at 2.
  apply map_ext_in. intros x Hin.
  destruct (id_eq (key x) (key u)) eqn:E; [|reflexivity].
  apply id_eq_true in E. exfalso. exact (Habs x Hin E).
Qed.

Lemma replace_by_key_hit (u : A) (prev : list A) :
  forall y, In y (replace_by_key key u prev) -> key y = key u -> y = u.
Proof.
  intros y Hy Hk. unfold replace_by_key in Hy. apply in_map_iff in Hy as [x [<- Hx]].
  destruct (id_eq (key x) (key u)) eqn:E; [reflexivity|].
  rewrite Hk, id_eq_refl in E. discriminate.
Qed.

End Keyed.

(** X5: the [menu:item:add] handler of the dashboard is idempotent, keeps
    the item ids of its list pairwise distinct, and leaves the list
    unchanged when an item with the same id is already listed (a later
    add never refreshes a listed item). *)
Theorem admin_menu_add_no_duplicates :
  (forall (n : menu_obj) prev,
     adminMenuItemAdd n (adminMenuItemAdd n prev) = adminMenuItemAdd n prev) /\
  (forall (n : menu_obj) prev,
     NoDup (map mo_item_id prev) -> NoDup (map mo_item_id (adminMenuItemAdd n prev))) /\
  (forall (n : menu_obj) prev,
     (exists x, In x prev /\ mo_item_id x = mo_item_id n) ->
     adminMenuItemAdd n prev = prev).
Proof.
  unfold adminMenuItemAdd. split; [|split].
  - intros. apply add_if_absent_twice.
  - intros. apply add_if_absent_nodup. assumption.
  - intros. apply add_if_absent_present. assumption.
Qed.

(** X6: the [menu:item:update] and [order:update] handlers of the
    dashboard keep the length of their list, are idempotent, leave the
    list unchanged when no entry has the message's id, and afterwards
    every entry with that id is the message itself. *)
Theorem admin_replace_handlers :
  (forall (u : menu_obj) prev,
     List.length (adminMenuItemUpdate u prev) = List.length prev /\
     adminMenuItemUpdate u (adminMenuItemUpdate u prev) = adminMenuItemUpdate u prev /\
     ((forall x, In x prev -> mo_item_id x <> mo_item_id u) -> adminMenuItemUpdate u prev = prev) /\
     (forall y, In y (adminMenuItemUpdate u prev) -> mo_item_id y = mo_item_id u -> y = u)) /\
  (forall (u : order_obj) prev,
     List.length (adminOrderUpdate u prev) = List.length prev /\
     adminOrderUpdate u (adminOrderUpdate u prev) = adminOrderUpdate u prev /\
     ((forall x, In x prev -> oo_order_id x <> oo_order_id u) -> adminOrderUpdate u prev = prev) /\
     (forall y, In y (adminOrderUpdate u prev) -> oo_order_id y = oo_order_id u -> y = u)).
Proof.
  unfold adminMenuItemUpdate, adminOrderUpdate.
  split; intros u prev; (split; [|split; [|split]]);
  first [ apply replace_by_key_length | apply replace_by_key_twice
        | apply replace_by_key_absent | apply replace_by_key_hit ].
Qed.

Section Live.
Context {N : Type} `{JsNum N} `{Decimal2 N}.

Lemma try_emits_incl (fe : room -> bool) (es : list (room * string * payload N)) :
  forall x, In x (emits_of (fst (try_emits fe es))) -> In x es.
Proof.
  induction es as [|[[r ev] p] es IH]; cbn; [tauto|].
  destruct (fe r); cbn; [tauto|].
  destruct (try_emits fe es) as [tr threw] eqn:E. cbn in *.
  intros x [Hx|Hx]; [left; exact Hx|right; apply IH, Hx].
Qed.

Lemma emits_of_app (t1 t2 : list (effect N)) :
  emits_of (t1 ++ t2) = emits_of t1 ++ emits_of t2.
Proof.
  induction t1 as [|[r ev p|m] t1 IH]; cbn; [reflexivity|rewrite IH|exact IH]; reflexivity.
Qed.

Lemma emits_of_notify_incl fe (es : list (room * string * payload N)) log :
  forall x, In x (emits_of (notify fe es log)) -> In x es.
Proof.
  intros x. unfold notify.
  pose proof (try_emits_incl fe es x) as Hi.
  destruct (try_emits fe es) as [tr threw]. cbn in Hi.
  rewrite emits_of_app. intros Hx. apply in_app_iff in Hx as [Hx|Hx]; [auto|].
  destruct log as [m|]; cbn in Hx; [destruct threw|]; cbn in Hx; tauto.
Qed.

Lemma order_tx_emits (d : db N) f uid num tot pm lines note log :
  forall x, In x (emits_of (out_trace (OrderCreate.order_tx d f uid num tot pm lines note log))) ->
  exists oid, x = (RAdmins, "order:new"%string, note oid).
Proof.
  intros x. unfold OrderCreate.order_tx.
  destruct (f_conn f); [cbn; tauto|].
  destruct (f_begin f); [cbn; tauto|].
  destruct (if f_ins_order f then None else _) as [[oid w1]|]; [|cbn; tauto].
  destruct (if f_ins_items f then None else _) as [w2|]; [|cbn; tauto].
  destruct (f_commit f); [cbn; tauto|].
  cbn [released out_trace]. intros Hx.
  apply emits_of_notify_incl in Hx as [Hx|[]]. exists oid. symmetry. exact Hx.
Qed.

(** X7: an order the dashboard receives live through [order:new] is never
    changed by a later [order:update]: both servers emit [order:new] with
    [orderId] and no [order_id], while the handler matches
    [order.order_id === updated.order_id] and an [order:update] carries
    the row, with its [order_id]. *)
Theorem admin_live_order_never_updated :
  (forall (d : db N) f now uid req x,
     In x (emits_of (out_trace (OrderCreate.create_order_main d f now uid req))) ->
     forall (o : order_row N) prev,
       adminOrderUpdate (order_obj_of_payload (POrder o))
         (adminOrderNew (order_obj_of_payload (snd x)) prev) =
       order_obj_of_payload (snd x) ::
         adminOrderUpdate (order_obj_of_payload (POrder o)) prev) /\
  (forall (d : db N) f now uid pm lines x,
     In x (emits_of (out_trace (OrderCreate.create_order_alt d f now uid pm lines))) ->
     forall (o : order_row N) prev,
       adminOrderUpdate (order_obj_of_payload (POrder o))
         (adminOrderNew (order_obj_of_payload (snd x)) prev) =
       order_obj_of_payload (snd x) ::
         adminOrderUpdate (order_obj_of_payload (POrder o)) prev).
Proof.
  split.
  - intros d f now uid req x Hx o prev.
    unfold OrderCreate.create_order_main in Hx.
    destruct (OrderCreate.validate_main now req) as [m|[pm lines]]; [cbn in Hx; tauto|].
    apply order_tx_emits in Hx as [oid ->]. reflexivity.
  - intros d f now uid pm lines x Hx o prev.
    unfold OrderCreate.create_order_alt in Hx.
    apply order_tx_emits in Hx as [oid ->]. reflexivity.
Qed.

End Live.

Import Reconciler.

Section OrdersPage.
Context {N : Type}.

(** X8: [handleOrderUpdate] of [Orders.js] keeps the length and the order
    of the list, changes only the [status] and [payment_status] of the
    entries with the message's [order_id], and is idempotent. *)
Theorem orders_page_update_fields :
  forall (u : order_row N) (prev : list (cached_order N)),
    Forall2 (fun o o' =>
               co_order_id o' = co_order_id o /\
               co_order_number o' = co_order_number o /\
               co_total_amount o' = co_total_amount o /\
               (co_order_id o <> or_id u -> o' = o) /\
               (co_order_id o = or_id u ->
                  co_status o' = or_status u /\ co_payment_status o' = or_payment_status u))
            prev (handleOrderUpdate u prev) /\
    handleOrderUpdate u (handleOrderUpdate u prev) = handleOrderUpdate u prev.
Proof.
  intros u prev. split.
  - induction prev as [|o prev IH]; cbn; constructor; [|exact IH].
    destruct (Z.eqb (co_order_id o) (or_id u)) eqn:E; cbn.
    + apply Z.eqb_eq in E. repeat split; tauto.
    + apply Z.eqb_neq in E. repeat split; tauto.
  - unfold handleOrderUpdate. rewrite map_map. apply map_ext. intros o.
    destruct (Z.eqb (co_order_id o) (or_id u)) eqn:E; cbn; rewrite E; reflexivity.
Qed.

End OrdersPage.

End AdminCacheFacts.

(** ** The [cart:add] socket event *)

Module CartFacts.
Import MenuCache Cart.

(** X9: on Main, [cart:add] produces exactly one effect, a warning or an
    emit; an emit goes to [admins] only, as [cart:activity], only for an
    object [item] whose [item_id] is an integer, and carries the
    authenticated user's (non-zero) id from the token, whatever the
    payload says, and the payload's integer [quantity] unchecked (zero or
    negative included), [1] when it is not an integer. *)
Theorem cart_add_main_admins_only :
  forall t c payload,
    Sockets.auth_main t = Some c ->
    List.length (cart_add_main c payload) = 1%nat /\
    forall r ev a, In (CEmit r ev a) (cart_add_main c payload) ->
      r = RAdmins /\ ev = "cart:activity"%string /\
      ca_userId a = Sockets.cl_userId c /\ Sockets.truthy_id (Sockets.cl_userId c) = true /\
      exists id q, payload = CPObject (CIObject (JInt id) q) /\
        ca_item a = Some (CIObject (JInt id)
                            (JInt (match q with JInt z => z | JNonInt => 1 end))).
Proof.
  intros t c payload Ha.
  assert (Hid : Sockets.truthy_id (Sockets.cl_userId c) = true).
  { destruct t as [| |c0]; cbn in Ha; try discriminate.
    destruct (Sockets.truthy_id (Sockets.cl_userId c0)) eqn:E; cbn in Ha; [|discriminate].
    destruct (_ && _); inversion Ha; subst; exact E. }
  split.
  - destruct payload as [| |[| |[id|] q]]; reflexivity.
  - intros r ev a Hin.
    destruct payload as [| |[| |[id|] q]]; cbn in Hin;
      destruct Hin as [Hin|[]]; try discriminate.
    inversion Hin; subst. repeat split; [exact Hid|].
    exists id, q. split; reflexivity.
Qed.

(** X11: "Add to Cart" in [Menu.js] hands an item to the cart and sends
    [cart:add] only for a logged-in customer and an item whose
    [is_active] is not [0]; when the item has an id, Main relays that
    message to [admins] with that id and quantity [1]. *)
Theorem add_to_cart_reaches_admins :
  forall (user : option user_obj) (item : menu_obj) sent,
    handleAddToCart user item = CartAdded sent ->
    is_zero (mo_is_active item) = false /\
    (exists u, user = Some u /\ uo_role u = Some "customer"%string) /\
    forall c id, mo_item_id item = Some id ->
      cart_add_main c sent =
        [CEmit RAdmins "cart:activity"
           (mk_cart_activity (Sockets.cl_userId c) (Sockets.cl_username c)
              (Some (CIObject (JInt id) (JInt 1))))].
Proof.
  intros user item sent H. unfold handleAddToCart in H.
  destruct (is_zero (mo_is_active item)) eqn:Hz; [discriminate|].
  destruct user as [u|]; [|discriminate].
  destruct (uo_role u) as [r|] eqn:Hr; [|discriminate].
  destruct (String.eqb r "customer") eqn:Er; cbn in H; [|discriminate].
  apply String.eqb_eq in Er. subst r.
  split; [reflexivity|]. split; [exists u; split; [reflexivity|exact Hr]|].
  intros c id Hid. rewrite Hid in H. inversion H; subst. reflexivity.
Qed.

End CartFacts.

(** ** Category routes (Alt) *)

Module CategoryFacts.
Import Category.

(** X12: on Alt, creating a category always stores it active, whatever
    [is_active] the body carries; on success exactly one row is appended,
    with the next id and the trimmed, non-blank name; a missing or blank
    name is a 400 that writes and emits nothing. *)
Theorem create_category_always_active :
  (forall d f name b1 b2,
     create_category_alt d f name b1 = create_category_alt d f name b2) /\
  (forall d f name act,
     cres_status (create_category_alt d f name act) = 201 ->
     exists s, name = NStr s /\ js_trim s <> ""%string /\
       cats (cres_store (create_category_alt d f name act)) =
         cats d ++ [mk_category_row (next_cat_id d) (js_trim s) 1]) /\
  (forall d f name act,
     cres_status (create_category_alt d f name act) <> 201 ->
     cres_store (create_category_alt d f name act) = d /\
     cres_emits (create_category_alt d f name act) = []).
Proof.
  split; [|split].
  - intros d f [|s|] b1 b2; cbn; try reflexivity.
    destruct (String.eqb s "" || String.eqb (js_trim s) "")%bool; [reflexivity|].
    destruct b1 as [[]|], b2 as [[]|]; reflexivity.
  - intros d f [|s|] act; cbn; try discriminate.
    destruct (String.eqb s "" || String.eqb (js_trim s) "")%bool eqn:E; cbn; [discriminate|].
    destruct (cf_write f); cbn; [discriminate|]. intros _.
    apply orb_false_iff in E as [_ E]. apply String.eqb_neq in E.
    exists s. split; [reflexivity|]. split; [exact E|].
    destruct act as [[]|]; reflexivity.
  - intros d f [|s|] act; cbn; try (intros; split; reflexivity).
    destruct (String.eqb s "" || String.eqb (js_trim s) "")%bool; cbn;
      [intros; split; reflexivity|].
    destruct (cf_write f); cbn; [intros; split; reflexivity|].
    intros H. exfalso. apply H. reflexivity.
Qed.

Lemma cat_step_refl (catId : Z) (l : list category_row) :
  Forall2 (fun c c' =>
                cat_id c' = cat_id c /\
                (cat_id c <> catId -> c' = c) /\
                (cat_name c' = cat_name c \/ cat_name c' <> ""%string) /\
                (cat_active c' = cat_active c \/ cat_active c' = 0 \/ cat_active c' = 1)) l l.
Proof.
  induction l; constructor; [|assumption]. repeat split; auto.
Qed.

Lemma cat_step_map (catId : Z) nm a (l : list category_row) :
  (forall v, nm = Some v -> v <> ""%string) ->
  (forall v, a = Some v -> v = 0 \/ v = 1) ->
  Forall2 (fun c c' =>
                cat_id c' = cat_id c /\
                (cat_id c <> catId -> c' = c) /\
                (cat_name c' = cat_name c \/ cat_name c' <> ""%string) /\
                (cat_active c' = cat_active c \/ cat_active c' = 0 \/ cat_active c' = 1)) l
    (map (fun c => if is_cat catId c then apply_cat nm a c else c) l).
Proof.
  intros Hn Ha. induction l as [|c l IH]; cbn; constructor; [|exact IH].
  destruct (is_cat catId c) eqn:E.
  - unfold is_cat in E. apply Z.eqb_eq in E. cbn.
    split; [reflexivity|]. split; [intros H; contradiction|]. split.
    + destruct nm as [v|]; [right; apply (Hn v eq_refl)|left; reflexivity].
    + destruct a as [v|]; [right; apply (Ha v eq_refl)|left; reflexivity].
  - repeat split; auto.
Qed.

(** X13: on Alt, updating a category answers 400, writing and emitting
    nothing, exactly when the body has neither a non-blank string name
    nor an [is_active]; any answer other than 200 leaves the store as it
    was; the rows after the request correspond one to one to the rows
    before, and only the row with the requested id can change, there
    only its name (to a non-blank one) and [is_active] (to [1] or [0]). *)
Theorem update_category_fields :
  (forall d f catId name act,
     cres_status (update_category_alt d f catId name act) = 400 <->
     (forall s, name = NStr s -> js_trim s = ""%string) /\ act = None) /\
  (forall d f catId name act,
     cres_status (update_category_alt d f catId name act) <> 200 ->
     cres_store (update_category_alt d f catId name act) = d /\
     cres_emits (update_category_alt d f catId name act) = []) /\
  (forall d f catId name act,
     Forall2 (fun c c' =>
                cat_id c' = cat_id c /\
                (cat_id c <> catId -> c' = c) /\
                (cat_name c' = cat_name c \/ cat_name c' <> ""%string) /\
                (cat_active c' = cat_active c \/ cat_active c' = 0 \/ cat_active c' = 1))
             (cats d) (cats (cres_store (update_category_alt d f catId name act)))).
Proof.
  split; [|split].
  - intros d f catId name act. unfold update_category_alt.
    set (nm := match name with
               | NStr s => if String.eqb (js_trim s) "" then None else Some (js_trim s)
               | _ => None end).
    assert (Hnm : nm = None <-> forall s, name = NStr s -> js_trim s = ""%string).
    { subst nm. destruct name as [|s|]; split; intros H; try reflexivity;
        try (intros s' E; discriminate).
      - intros s' E. inversion E; subst. destruct (String.eqb (js_trim s') "") eqn:Es;
          [apply String.eqb_eq, Es|discriminate].
      - rewrite (H s eq_refl). reflexivity. }
    rewrite <- Hnm.
    destruct nm as [v|], act as [b|]; cbn;
    try (split; [intros H; exfalso|intros [H1 H2]; discriminate]);
    try (destruct (cf_write f); cbn in H; [discriminate|];
         destruct (negb _); cbn in H; discriminate).
    tauto.
  - intros d f catId name act. unfold update_category_alt.
    destruct (match name with
              | NStr s => if String.eqb (js_trim s) "" then None else Some (js_trim s)
              | _ => None end) as [v|], act as [b|]; cbn;
    try (intros; split; reflexivity);
    (destruct (cf_write f); cbn; [intros; split; reflexivity|]);
    (destruct (negb _); cbn; [intros; split; reflexivity|]);
    intros H; exfalso; apply H; reflexivity.
  - intros d f catId name act. unfold update_category_alt.
    assert (Hn : forall v, (match name with
              | NStr s => if String.eqb (js_trim s) "" then None else Some (js_trim s)
              | _ => None end) = Some v -> v <> ""%string).
    { intros v. destruct name as [|s|]; try discriminate.
      destruct (String.eqb (js_trim s) "") eqn:E; [discriminate|].
      intros H; inversion H; subst. apply String.eqb_neq, E. }
    assert (Ha : forall v, (match act with Some b => Some (if b then 1 else 0) | None => None end)
                           = Some v -> v = 0 \/ v = 1).
    { intros v. destruct act as [[]|]; intros H; inversion H; auto. }
    revert Hn Ha.
    destruct (match name with
              | NStr s => if String.eqb (js_trim s) "" then None else Some (js_trim s)
              | _ => None end) as [v|],
             (match act with Some b => Some (if b then 1 else 0) | None => None end) as [w|];
    intros Hn Ha; cbn; try apply cat_step_refl;
    (destruct (cf_write f); cbn; [apply cat_step_refl|]);
    (destruct (negb _); cbn; [apply cat_step_refl|]);
    apply cat_step_map; assumption.
Qed.

End CategoryFacts.

(** ** Registration (Main) *)

Module RegisterFacts.
Import Register.

Lemma reg_check_insert (s : user_store) f r role :
  reg_check s f r = RInsert role ->
  (role = "customer"%string \/ role = "admin"%string) /\
  (role = "admin"%string -> rg_role r = Some "admin"%string /\ (admin_count s < 2)%nat).
Proof.
  unfold reg_check. destruct (reg_errors r); [|intros H; discriminate H].
  destruct (rg_role r) as [x|] eqn:Hr; [destruct (String.eqb x "admin") eqn:Ex|];
    cbn -[Nat.leb admin_count].
  - destruct (rf_count f); [intros H; discriminate H|].
    destruct (Nat.leb 2 (admin_count s)) eqn:Hc; [intros H; discriminate H|].
    intros H; injection H as <-. split; [right; reflexivity|].
    intros _. apply String.eqb_eq in Ex. subst x. split; [reflexivity|].
    apply Nat.leb_gt, Hc.
  - intros H; injection H as <-. split; [left; reflexivity|discriminate].
  - intros H; injection H as <-. split; [left; reflexivity|discriminate].
Qed.

Lemma admin_count_snoc (s : user_store) (row : user_row) us' :
  admin_count (mk_user_store (users s ++ [row]) us') =
  (admin_count s + if String.eqb (u_role row) "admin" then 1 else 0)%nat.
Proof.
  unfold admin_count. cbn. rewrite filter_app, length_app. cbn.
  destruct (String.eqb (u_role row) "admin"); reflexivity.
Qed.

Lemma reg_insert_cases (s : user_store) f r role :
  fst (reg_insert s f r role) = s \/
  fst (reg_insert s f r role) =
    mk_user_store (users s ++ [mk_user_row (next_user_id s) (js_trim (rg_username r))
                                 (rg_email r) role]) (next_user_id s + 1).
Proof.
  unfold reg_insert. destruct (existsb _ _); [left; reflexivity|].
  destruct (rf_insert f); [left|right]; reflexivity.
Qed.

(** X14: registration on Main only ever stores the roles [customer] and
    [admin]: a request for [staff] (or any other role) is a 400 that
    stores nothing, and an [admin] account is added only when the body
    asks for the role [admin]. *)
Theorem register_roles :
  (forall s f r, rg_role r = Some "staff"%string ->
     rr_status (snd (register_main s f r)) = 400 /\ fst (register_main s f r) = s) /\
  (forall s f r u, In u (users (fst (register_main s f r))) ->
     In u (users s) \/ u_role u = "customer"%string \/ u_role u = "admin"%string) /\
  (forall s f r, (admin_count s < admin_count (fst (register_main s f r)))%nat ->
     rg_role r = Some "admin"%string).
Proof.
  split; [|split].
  - intros s f r Hr. unfold register_main, reg_check.
    assert (Hin : In "Invalid role specified"%string (reg_errors r)).
    { unfold reg_errors. rewrite Hr. cbn. rewrite !in_app_iff. right; right; right. left.
      reflexivity. }
    destruct (reg_errors r) as [|m ms]; [contradiction|]. split; reflexivity.
  - intros s f r u. unfold register_main.
    destruct (reg_check s f r) as [resp|role] eqn:Hc; [cbn; tauto|].
    destruct (reg_check_insert _ _ _ _ Hc) as [Hrole _].
    destruct (reg_insert_cases s f r role) as [E|E]; rewrite E; [tauto|].
    cbn. rewrite in_app_iff. intros [H|[<-|[]]]; [tauto|cbn; tauto].
  - intros s f r. unfold register_main.
    destruct (reg_check s f r) as [resp|role] eqn:Hc; [cbn; lia|].
    destruct (reg_check_insert _ _ _ _ Hc) as [_ Hadm].
    destruct (reg_insert_cases s f r role) as [E|E]; rewrite E; [lia|].
    rewrite admin_count_snoc. cbn.
    destruct (String.eqb role "admin") eqn:Er; [|lia].
    intros _. apply String.eqb_eq in Er. apply (Hadm Er).
Qed.

(** X15: on Main, registrations handled one after the other never bring
    the number of admin accounts above two, and each adds at most one. *)
Theorem register_admin_cap :
  forall s f r,
    (admin_count (fst (register_main s f r)) <= admin_count s + 1)%nat /\
    ((admin_count s <= 2)%nat -> (admin_count (fst (register_main s f r)) <= 2)%nat).
Proof.
  intros s f r. unfold register_main.
  destruct (reg_check s f r) as [resp|role] eqn:Hc; [cbn; lia|].
  destruct (reg_check_insert _ _ _ _ Hc) as [_ Hadm].
  destruct (reg_insert_cases s f r role) as [E|E]; rewrite E; [lia|].
  rewrite admin_count_snoc. cbn.
  destruct (String.eqb role "admin") eqn:Er; [|lia].
  apply String.eqb_eq in Er. destruct (Hadm Er) as [_ Hlt]. lia.
Qed.

Lemma reg_check_answer_no_token (s : user_store) f r resp :
  reg_check s f r = RAnswer resp -> rr_token resp = None.
Proof.
  unfold reg_check. destruct (reg_errors r); [|intros H; injection H as <-; reflexivity].
  destruct (rg_role r) as [x|]; [destruct (String.eqb x "admin")|];
    cbn -[Nat.leb admin_count]; try (intros H; discriminate H).
  destruct (rf_count f); [intros H; injection H as <-; reflexivity|].
  destruct (Nat.leb 2 (admin_count s)); [intros H; injection H as <-; reflexivity|].
  intros H; discriminate H.
Qed.

(** X17: the token returned by a registration on Main carries
    [{ user_id, role }] and no [userId] or [username], so the socket
    handshake of Main rejects it. *)
Theorem register_token_rejected_by_socket :
  forall s f r t,
    rr_token (snd (register_main s f r)) = Some t -> Sockets.connect_main t = None.
Proof.
  intros s f r t. unfold register_main.
  destruct (reg_check s f r) as [resp|role] eqn:Hc.
  - cbn. rewrite (reg_check_answer_no_token _ _ _ _ Hc). discriminate.
  - unfold reg_insert. destruct (existsb _ _); [cbn; discriminate|].
    destruct (rf_insert f); cbn; [discriminate|].
    intros H; injection H as <-. reflexivity.
Qed.

End RegisterFacts.

(** ** Order creation and status updates *)

Section OrderFacts.
Context {N : Type} `{JsNum N} `{Decimal2 N}.
Import OrderCreate StatusUpdate.

(** X18: the validation loop of Main accepts a list of items exactly when
    every item has an integer [item_id], an integer [quantity] of at least
    [1] and a truthy [price]; it then passes on one (item id, quantity,
    price) tuple per item, in the order of the request. *)
Theorem check_items_accepts_exactly :
  forall (its : list (item_in (N:=N))) lines,
    check_items its = inr lines <->
    forallb valid_item its = true /\ lines = map line_of its.
Proof.
  induction its as [|it its IH]; intros lines; cbn.
  - split; [intros E; injection E as <-; split; reflexivity|].
    intros [_ ->]. reflexivity.
  - unfold valid_item at 1, line_of at 1.
    destruct (in_item_id it) as [i|], (in_quantity it) as [q|]; cbn;
      try (split; [discriminate|intros [E _]; discriminate]).
    destruct (jtruthy (in_price it)); cbn;
      [|split; [discriminate|intros [E _]; discriminate]].
    destruct (q <? 1) eqn:Hq.
    + replace (1 <=? q) with false by (symmetry; apply Z.leb_gt; apply Z.ltb_lt in Hq; lia).
      split; [discriminate|intros [E _]; discriminate].
    + replace (1 <=? q) with true by (symmetry; apply Z.leb_le; apply Z.ltb_ge in Hq; lia).
      cbn. destruct (check_items its) as [m|ls] eqn:Ec.
      * split; [discriminate|]. intros [Hall ->].
        pose proof (proj2 (IH (map line_of its)) (conj Hall eq_refl)) as Hc.
        discriminate Hc.
      * split.
        -- intros E. injection E as <-. destruct (proj1 (IH ls) eq_refl) as [Hall ->].
           split; [exact Hall|reflexivity].
        -- intros [Hall ->]. destruct (proj1 (IH ls) eq_refl) as [_ ->]. reflexivity.
Qed.

Lemma order_tx_duplicate_number (d : db N) f uid num tot pm lines note log :
  (exists o, In o (orders d) /\ or_number o = num) ->
  tx_failed d (order_tx d f uid num tot pm lines note log).
Proof.
  intros [o [Hin Hnum]]. apply order_tx_not_success. unfold order_tx.
  destruct (f_conn f); [cbn; congruence|].
  destruct (f_begin f); [cbn; congruence|].
  destruct (f_ins_order f); [cbn; congruence|].
  simpl. unfold insert_order.
  replace (existsb _ (orders d)) with true; [cbn; congruence|].
  symmetry. apply existsb_exists. exists o. split; [exact Hin|].
  cbn. rewrite Hnum. apply Z.eqb_refl.
Qed.

(** X19: the order number is [ORD] followed by [Date.now()] and is UNIQUE:
    a valid order placed in the same millisecond as a stored order, by any
    user, fails as a whole (500, nothing written, no transaction left
    open, nothing emitted); in particular the second of two orders placed
    in the same millisecond fails after the first succeeded. *)
Theorem same_millisecond_orders_collide :
  (forall (d : db N) f now uid req pm lines,
     validate_main now req = inr (pm, lines) ->
     (exists o, In o (orders d) /\ or_number o = now) ->
     tx_failed d (create_order_main d f now uid req)) /\
  (forall (d : db N) f1 f2 now uid1 uid2 req1 req2 pm lines,
     status (out_resp (create_order_main d f1 now uid1 req1)) = 201 ->
     validate_main now req2 = inr (pm, lines) ->
     tx_failed (out_db (create_order_main d f1 now uid1 req1))
       (create_order_main (out_db (create_order_main d f1 now uid1 req1)) f2 now uid2 req2)).
Proof.
  split.
  - intros d f now uid req pm lines Hv Hex. unfold create_order_main. rewrite Hv.
    apply order_tx_duplicate_number, Hex.
  - intros d f1 f2 now uid1 uid2 req1 req2 pm lines Hs Hv.
    unfold create_order_main at 2. rewrite Hv. apply order_tx_duplicate_number.
    unfold create_order_main in Hs |- *.
    destruct (validate_main now req1) as [m|[pm1 lines1]]; [cbn in Hs; discriminate|].
    destruct (order_tx_success _ _ _ _ _ _ _ _ _ Hs) as [Hd _]. rewrite Hd. cbn.
    eexists. split; [apply in_or_app; right; left; reflexivity|reflexivity].
Qed.

Lemma update_rows_frame (orderId : Z) s p (l : list (order_row N)) :
  Forall2 (fun o o' =>
             or_id o' = or_id o /\ or_user o' = or_user o /\ or_number o' = or_number o /\
             or_total o' = or_total o /\ or_payment_method o' = or_payment_method o /\
             (or_id o <> orderId -> o' = o))
          l (map (fun o => if is_order orderId o then apply_update s p o else o) l).
Proof.
  induction l as [|o l IH]; cbn; constructor; [|exact IH].
  destruct (is_order orderId o) eqn:E.
  - unfold is_order in E. apply Z.eqb_eq in E. cbn. repeat split; tauto.
  - repeat split; auto.
Qed.

Lemma rows_frame_refl (orderId : Z) (l : list (order_row N)) :
  Forall2 (fun o o' =>
             or_id o' = or_id o /\ or_user o' = or_user o /\ or_number o' = or_number o /\
             or_total o' = or_total o /\ or_payment_method o' = or_payment_method o /\
             (or_id o <> orderId -> o' = o))
          l l.
Proof. induction l; constructor; [repeat split; auto|assumption]. Qed.

(** X20: the status route (Alt) writes nothing but the [status] and
    [payment_status] of the order it names: the menu, the line items and
    the counters stay as they were, every other order is unchanged, and
    the named order keeps its id, owner, number, total and payment
    method. *)
Theorem update_status_frame :
  forall (d : db N) f orderId st ps,
    menu_ids (out_db (update_status d f orderId st ps)) = menu_ids d /\
    next_item_id (out_db (update_status d f orderId st ps)) = next_item_id d /\
    order_items (out_db (update_status d f orderId st ps)) = order_items d /\
    next_order_id (out_db (update_status d f orderId st ps)) = next_order_id d /\
    Forall2 (fun o o' =>
               or_id o' = or_id o /\ or_user o' = or_user o /\ or_number o' = or_number o /\
               or_total o' = or_total o /\ or_payment_method o' = or_payment_method o /\
               (or_id o <> orderId -> o' = o))
            (orders d) (orders (out_db (update_status d f orderId st ps))).
Proof.
  intros d f orderId st ps. unfold update_status.
  destruct (keep_valid allowedStatus st) as [s|], (keep_valid allowedPayment ps) as [p|];
  cbv zeta;
  repeat match goal with
         | |- context [if ?b then _ else _] => destruct b
         | |- context [match ?x with Some _ => _ | None => _ end] => destruct x
         end; cbn [out_db menu_ids next_item_id order_items next_order_id orders];
  repeat split; first [apply update_rows_frame | apply rows_frame_refl].
Qed.

End OrderFacts.
(* ================================================================== *)
(** * Witnesses of the further properties *)

Import MoreSamples MenuCache MenuCacheFacts AdminCache AdminCacheFacts Cart CartFacts
       Category CategoryFacts Register RegisterFacts.
Local Open Scope string_scope.

Lemma menu_add_unique_ids_witness :
  NoDup (map mo_item_id [samosa]) /\
  NoDup (map mo_item_id (handleMenuItemAdd (Some tea) [samosa])) /\
  In (Some 8) (map mo_item_id (handleMenuItemAdd (Some tea) [samosa])).
Proof.
  assert (Hnd : NoDup (map mo_item_id [samosa])) by (constructor; [intros []|constructor]).
  split; [exact Hnd|]. split.
  - exact (proj1 menu_add_unique_ids (Some tea) [samosa] Hnd).
  - exact (proj2 menu_add_unique_ids tea [samosa] eq_refl eq_refl).
Defined.

Lemma menu_update_never_adds_witness :
  handleMenuItemUpdate (Some tea) [samosa] = [samosa] /\
  (forall it, In it (handleMenuItemUpdate (Some samosa_removed) [samosa; tea]) ->
              mo_item_id it <> Some 7) /\
  incl (map mo_item_id (handleMenuItemUpdate (Some tea) [samosa; tea]))
       (map mo_item_id [samosa; tea]).
Proof.
  split; [|split].
  - apply (proj1 (proj2 menu_update_never_adds) tea [samosa]).
    intros it [<-|[]]. cbn. discriminate.
  - exact (proj2 (proj2 menu_update_never_adds) samosa_removed [samosa; tea]
             eq_refl eq_refl).
  - exact (proj1 menu_update_never_adds (Some tea) [samosa; tea]).
Defined.

Lemma menu_cache_never_holds_removed_witness :
  no_removed (filterActiveItems [samosa; samosa_removed]) /\
  no_removed (handleMenuItemAdd (Some tea) (filterActiveItems [samosa; samosa_removed])).
Proof.
  assert (H0 : no_removed (filterActiveItems [samosa; samosa_removed]))
    by exact (proj1 menu_cache_never_holds_removed [samosa; samosa_removed]).
  split; [exact H0|].
  exact (proj1 (proj2 menu_cache_never_holds_removed) (Some tea) _ H0).
Defined.

Lemma admin_menu_add_no_duplicates_witness :
  adminMenuItemAdd samosa_removed [samosa] = [samosa] /\
  NoDup (map mo_item_id (adminMenuItemAdd tea [samosa])).
Proof.
  split.
  - apply (proj2 (proj2 admin_menu_add_no_duplicates)).
    exists samosa. split; [left; reflexivity|reflexivity].
  - apply (proj1 (proj2 admin_menu_add_no_duplicates)).
    constructor; [intros []|constructor].
Defined.

Lemma admin_replace_handlers_witness :
  adminMenuItemUpdate tea [samosa] = [samosa] /\
  (forall y, In y (adminMenuItemUpdate samosa_removed [samosa; tea]) ->
             mo_item_id y = Some 7 -> y = samosa_removed).
Proof.
  split.
  - apply (proj1 (proj2 (proj2 (proj1 admin_replace_handlers tea [samosa])))).
    intros x [<-|[]]. cbn. discriminate.
  - exact (proj2 (proj2 (proj2 (proj1 admin_replace_handlers samosa_removed [samosa; tea])))).
Defined.

Lemma admin_live_order_never_updated_witness :
  In (RAdmins, "order:new"%string, PNewOrder 1 1000 1000 42)
     (emits_of (out_trace (OrderCreate.create_order_main store7 no_faults 1000 42
                             (one_item_req 7)))) /\
  adminOrderUpdate (order_obj_of_payload (POrder (mk_order_row 1 42 1000 1000 "cash"
                                                   "confirmed" "pending")))
    (adminOrderNew (order_obj_of_payload (PNewOrder 1 1000 1000 42)) [])
  = [order_obj_of_payload (PNewOrder 1 1000 1000 42)].
Proof.
  assert (Hin : In (RAdmins, "order:new"%string, PNewOrder 1 1000 1000 42)
     (emits_of (out_trace (OrderCreate.create_order_main store7 no_faults 1000 42
                             (one_item_req 7))))) by (left; reflexivity).
  split; [exact Hin|].
  exact (proj1 admin_live_order_never_updated _ _ _ _ _ _ Hin
           (mk_order_row 1 42 1000 1000 "cash" "confirmed" "pending") []).
Defined.

Lemma orders_page_update_fields_witness :
  Reconciler.handleOrderUpdate (mk_order_row 1 42 1000 1000 "cash" "ready" "paid")
    (Reconciler.handleOrderUpdate (mk_order_row 1 42 1000 1000 "cash" "ready" "paid")
       [Reconciler.mk_cached_order 1 1000 1000 "pending" "pending"])
  = Reconciler.handleOrderUpdate (mk_order_row 1 42 1000 1000 "cash" "ready" "paid")
       [Reconciler.mk_cached_order 1 1000 1000 "pending" "pending"].
Proof.
  exact (proj2 (orders_page_update_fields (mk_order_row 1 42 1000 1000 "cash" "ready" "paid")
                  [Reconciler.mk_cached_order 1 1000 1000 "pending" "pending"])).
Defined.

Lemma cart_add_main_admins_only_witness :
  Sockets.auth_main (Sockets.TokValid customer_claims) = Some customer_claims /\
  List.length (cart_add_main customer_claims (CPObject (CIObject (JInt 7) (JInt (-3))))) = 1%nat /\
  (forall r ev a,
     In (CEmit r ev a) (cart_add_main customer_claims (CPObject (CIObject (JInt 7) (JInt (-3))))) ->
     r = RAdmins).
Proof.
  assert (Ha : Sockets.auth_main (Sockets.TokValid customer_claims) = Some customer_claims)
    by reflexivity.
  split; [exact Ha|]. split.
  - exact (proj1 (cart_add_main_admins_only _ _ (CPObject (CIObject (JInt 7) (JInt (-3)))) Ha)).
  - intros r ev a Hin.
    exact (proj1 (proj2 (cart_add_main_admins_only _ _ _ Ha) r ev a Hin)).
Defined.

Lemma add_to_cart_reaches_admins_witness :
  handleAddToCart (Some customer_user) samosa =
    CartAdded (CPObject (CIObject (JInt 7) (JInt 1))) /\
  cart_add_main customer_claims (CPObject (CIObject (JInt 7) (JInt 1))) =
    [CEmit RAdmins "cart:activity"
       (mk_cart_activity (Some 42) (Some "cust"%string) (Some (CIObject (JInt 7) (JInt 1))))].
Proof.
  assert (Hc : handleAddToCart (Some customer_user) samosa =
               CartAdded (CPObject (CIObject (JInt 7) (JInt 1)))) by reflexivity.
  split; [exact Hc|].
  exact (proj2 (proj2 (add_to_cart_reaches_admins _ _ _ Hc)) customer_claims 7 eq_refl).
Defined.

Lemma create_category_always_active_witness :
  create_category_alt snacks no_cat_faults (NStr "  Drinks ") (Some false) =
    create_category_alt snacks no_cat_faults (NStr "  Drinks ") None /\
  exists s, NStr "  Drinks " = NStr s /\
  cats (cres_store (create_category_alt snacks no_cat_faults (NStr "  Drinks ") (Some false)))
    = (cats snacks ++ [mk_category_row 2 (js_trim s) 1])%list.
Proof.
  split; [exact (proj1 create_category_always_active _ _ _ _ _)|].
  assert (Hs : cres_status (create_category_alt snacks no_cat_faults (NStr "  Drinks ")
                              (Some false)) = 201) by reflexivity.
  destruct (proj1 (proj2 create_category_always_active) _ _ _ _ Hs) as [s [E [_ Hc]]].
  exists s. split; [exact E|exact Hc].
Defined.

Lemma update_category_fields_witness :
  cres_status (update_category_alt snacks no_cat_faults 1 (NStr "   ") None) = 400 /\
  cres_store (update_category_alt snacks no_cat_faults 1 (NStr "   ") None) = snacks.
Proof.
  assert (H4 : cres_status (update_category_alt snacks no_cat_faults 1 (NStr "   ") None) = 400).
  { apply (proj1 update_category_fields). split; [|reflexivity].
    intros s E. injection E as <-. reflexivity. }
  split; [exact H4|].
  apply (proj1 (proj2 update_category_fields)). rewrite H4. discriminate.
Defined.

Lemma register_roles_witness :
  rr_status (snd (register_main one_admin no_reg_faults (reg_body "carol" (Some "staff")))) = 400 /\
  fst (register_main one_admin no_reg_faults (reg_body "carol" (Some "staff"))) = one_admin.
Proof.
  exact (proj1 register_roles one_admin no_reg_faults (reg_body "carol" (Some "staff")) eq_refl).
Defined.

Lemma register_admin_cap_witness :
  (admin_count (fst (register_main two_admins no_reg_faults (reg_body "carol" (Some "admin"))))
     <= 2)%nat /\
  rr_status (snd (register_main two_admins no_reg_faults (reg_body "carol" (Some "admin")))) = 403.
Proof.
  split; [|reflexivity].
  apply (proj2 (register_admin_cap two_admins no_reg_faults (reg_body "carol" (Some "admin")))).
  cbn. lia.
Defined.

Lemma register_token_rejected_by_socket_witness :
  rr_token (snd (register_main one_admin no_reg_faults (reg_body "carol" None))) =
    Some (Sockets.TokValid (Sockets.mk_claims None None (Some "customer"%string))) /\
  Sockets.connect_main (Sockets.TokValid (Sockets.mk_claims None None (Some "customer"%string)))
    = None.
Proof.
  assert (Ht : rr_token (snd (register_main one_admin no_reg_faults (reg_body "carol" None))) =
    Some (Sockets.TokValid (Sockets.mk_claims None None (Some "customer"%string))))
    by reflexivity.
  split; [exact Ht|]. exact (register_token_rejected_by_socket _ _ _ _ Ht).
Defined.

Lemma check_items_accepts_exactly_witness :
  OrderCreate.check_items [OrderCreate.mk_item_in (N:=Z) (JInt 7) (JInt 2) 500;
                           OrderCreate.mk_item_in (JInt 9) (JInt 1) 250]
  = inr [(7, 2, 500); (9, 1, 250)].
Proof. apply (proj2 (check_items_accepts_exactly _ _)). split; reflexivity. Defined.

Lemma same_millisecond_orders_collide_witness :
  status (out_resp (OrderCreate.create_order_main store7 no_faults 1000 42 (one_item_req 7)))
    = 201 /\
  tx_failed (out_db (OrderCreate.create_order_main store7 no_faults 1000 42 (one_item_req 7)))
    (OrderCreate.create_order_main
       (out_db (OrderCreate.create_order_main store7 no_faults 1000 42 (one_item_req 7)))
       no_faults 1000 43 (one_item_req 7)).
Proof.
  assert (Hs : status (out_resp (OrderCreate.create_order_main store7 no_faults 1000 42
                                   (one_item_req 7))) = 201) by reflexivity.
  split; [exact Hs|].
  exact (proj2 same_millisecond_orders_collide store7 no_faults no_faults 1000 42 43
           (one_item_req 7) (one_item_req 7) _ _ Hs eq_refl).
Defined.

Lemma update_status_frame_witness :
  order_items (out_db (StatusUpdate.update_status store_pending no_faults 1
                         (Some "ready"%string) (Some "paid"%string)))
  = order_items store_pending.
Proof. exact (proj1 (proj2 (proj2 (update_status_frame _ _ _ _ _)))). Defined.
